(** * Skill tool preparation (chat_shell/tools/skill_factory.py)

    A shallow embedding of [prepare_skill_tools], [_download_skill_binary],
    [_load_skill_mcp_tools] and [_safe_disconnect_client].

    The functions are asynchronous glue code around collaborators that live
    outside the module (the HTTP client, the skill tool registry, the
    LoadSkillTool instance and the MCP client).  The collaborators are taken
    as parameters: each is a function of the state of the outside world that
    either returns or raises.  The embedding threads that state, writes the
    [try]/[except] blocks of the source out as handlers, and keeps a log of
    every collaborator call with its result, so that statements such as
    "no download is attempted" or "the client is disconnected" are statements
    about the log.

    Exceptions are the members of Python's [Exception] hierarchy, which is
    what every handler of the module catches.  Logging calls are left out;
    [add_span_event] is kept as a log entry and never raises. *)

From Stdlib Require Import List String Ascii ZArith Bool Lia DecimalString.
Import ListNotations.
Open Scope string_scope.
Open Scope Z_scope.
Open Scope list_scope.

Set Implicit Arguments.

(** ** Python values used by the module *)

Definition bytes := list Byte.byte.

(** A [dict] with string keys: insertion-ordered, one entry per key. *)
Definition dict (V : Type) := list (string * V).

(** [d[k] = v]: an existing key keeps its position and takes the new value,
    a new key is added at the end. *)
Fixpoint dict_set {V : Type} (d : dict V) (k : string) (v : V) : dict V :=
  match d with
  | [] => [(k, v)]
  | (k', v') :: rest =>
      if String.eqb k' k then (k', v) :: rest
      else (k', v') :: dict_set rest k v
  end.

Fixpoint dict_get {V : Type} (d : dict V) (k : string) : option V :=
  match d with
  | [] => None
  | (k', v') :: rest => if String.eqb k' k then Some v' else dict_get rest k
  end.

Definition keys {V : Type} (d : dict V) : list string := map fst d.

(** [x in xs] for a list of strings. *)
Definition str_in (x : string) (xs : list string) : bool :=
  existsb (String.eqb x) xs.

(** Truthiness, as [if x:] reads it. *)
Definition truthy_str (s : string) : bool :=
  match s with EmptyString => false | _ => true end.

Definition truthy_list {A : Type} (l : list A) : bool :=
  match l with [] => false | _ => true end.

Definition truthy_opt_list {A : Type} (o : option (list A)) : bool :=
  match o with Some (_ :: _) => true | _ => false end.

Definition truthy_opt_int (o : option Z) : bool :=
  match o with Some z => negb (z =? 0) | None => false end.

(** [s.rstrip("/")] *)
Fixpoint rstrip_slash (s : string) : string :=
  match s with
  | EmptyString => EmptyString
  | String c rest =>
      match rstrip_slash rest with
      | EmptyString => if Ascii.eqb c "/" then EmptyString else String c EmptyString
      | rest' => String c rest'
      end
  end.

(** [str(n)] for an integer. *)
Definition str_of_int (z : Z) : string := NilZero.string_of_int (Z.to_int z).

(** ** Exceptions and results *)

Inductive exn : Type :=
| TimeoutError
| HTTPStatusError (status_code : Z)
| ConnectionError (msg : string)
| RuntimeError (msg : string).

Inductive outcome (A : Type) : Type :=
| Ret (a : A)
| Raise (e : exn).
Arguments Ret {A} a.
Arguments Raise {A} e.

(** ** Configuration data *)

Definition provider_config := dict string.
Definition server_config := dict string.
Definition mcp_configs := dict server_config.

Record tool_declaration := { decl_name : string }.

(** One entry of [skill_configs].  A field of type [option] is a key that
    may be absent (or [None]); [tools] and [prompt] carry the defaults the
    source reads them with. *)
Record skill_config := {
  cfg_name : option string;
  cfg_tools : list tool_declaration;
  cfg_provider : option provider_config;
  cfg_skill_id : option Z;
  cfg_skill_user_id : option Z;
  cfg_mcpServers : option mcp_configs;
  cfg_prompt : string
}.

(** [chat_shell.core.config.settings], read with [getattr]. *)
Record Settings := {
  INTERNAL_SERVICE_TOKEN : option string;
  REMOTE_STORAGE_TOKEN : option string;
  REMOTE_STORAGE_URL : option string
}.

Record SkillToolContext := {
  ctx_task_id : Z;
  ctx_subtask_id : Z;
  ctx_user_id : Z;
  ctx_ws_emitter : bool;
  ctx_skill_config : skill_config;
  ctx_user_name : string;
  ctx_auth_token : string
}.

(** The object built by [MCPClient(mcp_configs, task_data=task_data)]. *)
Record MCPClient := {
  client_servers : mcp_configs;
  client_task_data : option (dict string)
}.

(** The locals read from a skill configuration at the top of the loop. *)
Definition skill_name (c : skill_config) : string :=
  match cfg_name c with Some n => n | None => "unknown" end.
Definition tool_declarations (c : skill_config) := cfg_tools c.
Definition mcp_servers (c : skill_config) := cfg_mcpServers c.

(** [should_preload = preload_skills is not None and skill_name in preload_skills] *)
Definition should_preload (preload_skills : option (list string)) (c : skill_config) : bool :=
  match preload_skills with
  | None => false
  | Some names => str_in (skill_name c) names
  end.

(** [is_user_selected], computed the same way from [user_selected_skills]. *)
Definition is_user_selected (user_selected_skills : option (list string)) (c : skill_config) : bool :=
  match user_selected_skills with
  | None => false
  | Some names => str_in (skill_name c) names
  end.

(** [prefixed_name = f"{skill_name}_{server_name}"] *)
Definition prefixed_name (skill server : string) : string :=
  (skill ++ "_" ++ server)%string.

(** The inner [for server_name, server_config in mcp_servers.items()] loop. *)
Definition merge_mcp_servers (skill : string) (servers : mcp_configs)
    (skill_mcp_configs : mcp_configs) : mcp_configs :=
  fold_left (fun acc kv => dict_set acc (prefixed_name skill (fst kv)) (snd kv))
            servers skill_mcp_configs.

(** The batch after one skill: merged only for a preloaded skill with a
    non-empty [mcpServers]. *)
Definition collect_mcp_servers (preload_skills : option (list string))
    (c : skill_config) (skill_mcp_configs : mcp_configs) : mcp_configs :=
  match mcp_servers c with
  | Some (s :: rest) =>
      if should_preload preload_skills c
      then merge_mcp_servers (skill_name c) (s :: rest) skill_mcp_configs
      else skill_mcp_configs
  | _ => skill_mcp_configs
  end.

(** ** Collaborators and the log *)

(** The collaborators.  [world] is the state of everything outside the
    module (the registry's provider cache, the network, the LoadSkillTool
    instance), [tool] the tool instances the registry and the MCP client hand
    out, [loader] the LoadSkillTool object.  Each call takes the world,
    returns or raises, and leaves a new world. *)
Record collaborators (world tool loader : Type) := {
  (* [client.get(url, headers)] followed by [response.raise_for_status()],
     giving [response.content] *)
  httpx_get : string -> dict string -> world -> outcome bytes * world;
  (* [registry.ensure_provider_loaded(skill_name, provider_config, zip_content, is_public)] *)
  ensure_provider_loaded :
    string -> provider_config -> bytes -> bool -> world -> outcome bool * world;
  (* [registry.create_tools_for_skill(skill_config, context)] *)
  create_tools_for_skill :
    skill_config -> SkillToolContext -> world -> outcome (list tool) * world;
  (* [load_skill_tool.register_skill_tools(skill_name, skill_tools)] *)
  register_skill_tools : loader -> string -> list tool -> world -> outcome unit * world;
  (* [load_skill_tool.preload_skill_prompt(skill_name, skill_config, is_user_selected)] *)
  preload_skill_prompt :
    loader -> string -> skill_config -> bool -> world -> outcome unit * world;
  (* [MCPClient(mcp_configs, task_data=task_data)] *)
  MCPClient_init : mcp_configs -> option (dict string) -> world -> outcome unit * world;
  (* [asyncio.wait_for(client.connect(), timeout)]: [TimeoutError] on expiry *)
  client_connect : MCPClient -> Z -> world -> outcome unit * world;
  (* [client.is_connected] *)
  client_is_connected : MCPClient -> world -> bool;
  (* [client.get_tools()] *)
  client_get_tools : MCPClient -> world -> outcome (list tool) * world;
  (* [client.disconnect()] *)
  client_disconnect : MCPClient -> world -> outcome unit * world
}.

(** The log: one entry per collaborator call, with its arguments and its
    result, and one per span event. *)
Inductive event (tool : Type) : Type :=
| EvSpan (name : string)
| EvHttpGet (url : string) (headers : dict string) (r : outcome bytes)
| EvEnsureProviderLoaded (skill : string) (is_public : bool) (r : outcome bool)
| EvCreateTools (c : skill_config) (r : outcome (list tool))
| EvRegisterSkillTools (skill : string) (ts : list tool) (r : outcome unit)
| EvPreloadSkillPrompt (skill : string) (user_selected : bool) (r : outcome unit)
| EvMCPClient (configs : mcp_configs) (r : outcome unit)
| EvConnect (cl : MCPClient) (timeout : Z) (r : outcome unit)
| EvIsConnected (cl : MCPClient) (b : bool)
| EvGetTools (cl : MCPClient) (r : outcome (list tool))
| EvDisconnect (cl : MCPClient) (r : outcome unit).
Arguments EvSpan {tool} name.
Arguments EvHttpGet {tool} url headers r.
Arguments EvEnsureProviderLoaded {tool} skill is_public r.
Arguments EvCreateTools {tool} c r.
Arguments EvRegisterSkillTools {tool} skill ts r.
Arguments EvPreloadSkillPrompt {tool} skill user_selected r.
Arguments EvMCPClient {tool} configs r.
Arguments EvConnect {tool} cl timeout r.
Arguments EvIsConnected {tool} cl b.
Arguments EvGetTools {tool} cl r.
Arguments EvDisconnect {tool} cl r.

(** The loop state of [prepare_skill_tools]: the two locals the loop
    updates. *)
Record loop_state (tool : Type) := {
  st_tools : list tool;
  st_skill_mcp_configs : mcp_configs
}.

(** ** A reference world for worked examples *)

(** What the network and the MCP servers answer in an example. *)
Record script := {
  on_http : string -> outcome bytes;
  on_load : string -> outcome bool;
  on_client_init : outcome unit;
  on_connect : outcome unit;
  on_ready : bool;
  on_get_tools : outcome (list string);
  on_disconnect : outcome unit
}.

(** Modelled from the spec: the skill tool registry ([chat_shell.skills]),
    the LoadSkillTool instance and the MCP client are not part of this
    module.  The registry follows the Tool Provider Registry contract: it
    fails closed for a non-public owner, keeps a provider once loaded, caches
    nothing on failure, and [create_tools_for_skill] omits the declared tools
    of a skill whose provider is not loaded.  The world is the list of skill
    names with a loaded provider; tools are their names. *)
Definition reference_env (s : script) : collaborators (list string) string unit := {|
  httpx_get := fun url _ w => (on_http s url, w);
  ensure_provider_loaded := fun name _ _ is_public w =>
    if negb is_public then (Ret false, w)
    else if str_in name w then (Ret true, w)
    else match on_load s name with
         | Ret true => (Ret true, name :: w)
         | r => (r, w)
         end;
  create_tools_for_skill := fun c _ w =>
    if truthy_opt_list (cfg_provider c) && negb (str_in (skill_name c) w)
    then (Ret [], w)
    else (Ret (map (fun d => (skill_name c ++ "." ++ decl_name d)%string) (cfg_tools c)), w);
  register_skill_tools := fun _ _ _ w => (Ret tt, w);
  preload_skill_prompt := fun _ _ _ _ w => (Ret tt, w);
  MCPClient_init := fun _ _ w => (on_client_init s, w);
  client_connect := fun _ _ w => (on_connect s, w);
  client_is_connected := fun _ _ => on_ready s;
  client_get_tools := fun _ w => (on_get_tools s, w);
  client_disconnect := fun _ w => (on_disconnect s, w)
|}.

Definition zip_bytes : bytes := [Byte.x50; Byte.x4b].

(** Everything works: downloads succeed, providers load, the MCP servers
    connect and offer one tool. *)
Definition all_fine : script := {|
  on_http := fun _ => Ret zip_bytes;
  on_load := fun _ => Ret true;
  on_client_init := Ret tt;
  on_connect := Ret tt;
  on_ready := true;
  on_get_tools := Ret ["remote.search"];
  on_disconnect := Ret tt
|}.

Definition reference_settings : Settings := {|
  INTERNAL_SERVICE_TOKEN := Some "secret";
  REMOTE_STORAGE_TOKEN := None;
  REMOTE_STORAGE_URL := Some "http://backend/api/"
|}.

Definition local_skill (n : string) (owner : option Z) (decls : list string)
    (with_provider : bool) : skill_config := {|
  cfg_name := Some n;
  cfg_tools := map Build_tool_declaration decls;
  cfg_provider := if with_provider then Some [("module", "provider")] else None;
  cfg_skill_id := if with_provider then Some 7 else None;
  cfg_skill_user_id := owner;
  cfg_mcpServers := None;
  cfg_prompt := ("Use " ++ n)%string
|}.

Definition remote_skill (n : string) (servers : mcp_configs) : skill_config := {|
  cfg_name := Some n;
  cfg_tools := [];
  cfg_provider := None;
  cfg_skill_id := None;
  cfg_skill_user_id := None;
  cfg_mcpServers := Some servers;
  cfg_prompt := ""
|}.

(** The provider of skill "b" is corrupt: loading it raises. *)
Definition load_of_b_raises : script := {|
  on_http := fun _ => Ret zip_bytes;
  on_load := fun n => if String.eqb n "b" then Raise (RuntimeError "corrupt bundle")
                      else Ret true;
  on_client_init := Ret tt;
  on_connect := Ret tt;
  on_ready := true;
  on_get_tools := Ret ["remote.search"];
  on_disconnect := Ret tt
|}.

(** The MCP servers do not answer within the timeout, and the disconnect
    that follows raises as well. *)
Definition connect_times_out : script := {|
  on_http := fun _ => Ret zip_bytes;
  on_load := fun _ => Ret true;
  on_client_init := Ret tt;
  on_connect := Raise TimeoutError;
  on_ready := false;
  on_get_tools := Ret [];
  on_disconnect := Raise (ConnectionError "not connected")
|}.

(** Three public skills with a code provider and one declared tool each. *)
Definition three_skills : list skill_config :=
  [ local_skill "a" (Some 0) ["t"] true;
    local_skill "b" (Some 0) ["t"] true;
    local_skill "c" (Some 0) ["t"] true ].

(** A skill with a code provider owned by user 5, and the same skill
    without owner. *)
Definition private_skill : skill_config := local_skill "p" (Some 5) ["t1"] true.
Definition ownerless_skill : skill_config := local_skill "p" None ["t1"] true.

(** The same skill as [private_skill], declaring no tools. *)
Definition private_skill_no_tools : skill_config := local_skill "p" (Some 5) [] true.

(** Two skills whose endpoints fall on the same prefixed name. *)
Definition colliding_skills : list skill_config :=
  [ remote_skill "a_b" [("c", [("url", "http://first")])];
    remote_skill "a" [("b_c", [("url", "http://second")])] ].

(** A local skill and a skill with one endpoint. *)
Definition local_and_remote : list skill_config :=
  [ local_skill "a" (Some 0) ["t1"; "t2"] true;
    remote_skill "r" [("srv", [("url", "http://mcp")])] ].

From Stdlib Require DecimalZ DecimalPos.

(** ** [prepare_load_skill_tool] *)

(** One value of [skill_metadata]. *)
Record skill_metadata_entry := {
  description : string;
  prompt : string;
  displayName : string
}.

(** [config.get(key, default)] on the string-valued keys of a skill
    configuration, which are the ones [prepare_load_skill_tool] reads. *)
Definition get_or (config : dict string) (key default : string) : string :=
  match dict_get config key with Some v => v | None => default end.

Definition metadata_entry (config : dict string) : skill_metadata_entry := {|
  description := get_or config "description" "";
  prompt := get_or config "prompt" "";
  displayName := get_or config "displayName" ""
|}.

(** The body of [for config in skill_configs]: [name = config.get("name")],
    and [if name: skill_metadata[name] = {...}]. *)
Definition add_skill_metadata (skill_metadata : dict skill_metadata_entry)
    (config : dict string) : dict skill_metadata_entry :=
  match dict_get config "name" with
  | Some name =>
      if truthy_str name
      then dict_set skill_metadata name (metadata_entry config)
      else skill_metadata
  | None => skill_metadata
  end.

(** [skill_metadata = {}], filled [if skill_configs:]. *)
Definition build_skill_metadata (skill_configs : option (list (dict string)))
    : dict skill_metadata_entry :=
  match skill_configs with
  | Some configs => fold_left add_skill_metadata configs []
  | None => []
  end.


(** The configuration carries the name [n]. *)
Definition named (n : string) (config : dict string) : bool :=
  match dict_get config "name" with
  | Some m => String.eqb m n
  | None => false
  end.

(** ** Reading back what the module formats *)

(** Reading a decimal integer, the inverse of [str_of_int]. *)
Definition int_of_str (s : string) : option Z :=
  option_map Z.of_int (NilZero.int_of_string s).

(** The string has no underscore. *)
Fixpoint no_underscore (s : string) : bool :=
  match s with
  | EmptyString => true
  | String c rest => negb (Ascii.eqb c "_") && no_underscore rest
  end.

(** The string ends with a slash. *)
Fixpoint ends_with_slash (s : string) : bool :=
  match s with
  | EmptyString => false
  | String c EmptyString => Ascii.eqb c "/"
  | String _ rest => ends_with_slash rest
  end.

(** [n] slashes. *)
Fixpoint slashes (n : nat) : string :=
  match n with
  | O => EmptyString
  | S m => String "/" (slashes m)
  end.

(** The entries one skill adds to the batch of endpoint configs: its
    endpoints under their prefixed names, when the skill is preloaded. *)
Definition endpoint_entries (preload_skills : option (list string))
    (c : skill_config) : mcp_configs :=
  match mcp_servers c with
  | Some servers =>
      if should_preload preload_skills c
      then map (fun kv => (prefixed_name (skill_name c) (fst kv), snd kv)) servers
      else []
  | None => []
  end.

Definition all_endpoint_entries (preload_skills : option (list string))
    (skill_configs : list skill_config) : mcp_configs :=
  flat_map (endpoint_entries preload_skills) skill_configs.

(** A world whose registry raises on every tool creation. *)
Definition registry_raises : collaborators (list string) string unit := {|
  httpx_get := httpx_get (reference_env all_fine);
  ensure_provider_loaded := ensure_provider_loaded (reference_env all_fine);
  create_tools_for_skill := fun _ _ w => (Raise (RuntimeError "registry down"), w);
  register_skill_tools := register_skill_tools (reference_env all_fine);
  preload_skill_prompt := preload_skill_prompt (reference_env all_fine);
  MCPClient_init := MCPClient_init (reference_env all_fine);
  client_connect := client_connect (reference_env all_fine);
  client_is_connected := client_is_connected (reference_env all_fine);
  client_get_tools := client_get_tools (reference_env all_fine);
  client_disconnect := client_disconnect (reference_env all_fine)
|}.

(** Settings whose base URL is made of slashes only. *)
Definition settings_without_url : Settings := {|
  INTERNAL_SERVICE_TOKEN := None;
  REMOTE_STORAGE_TOKEN := Some "storage";
  REMOTE_STORAGE_URL := Some "///"
|}.

(** Two configurations with one name, and one without name. *)
Definition metadata_configs : list (dict string) :=
  [ [("name", "a"); ("description", "first"); ("prompt", "p1")];
    [("description", "nameless")];
    [("name", "a"); ("prompt", "p2")] ].

(** ** The effectful part *)

Section Factory.

Variable world : Type.
Variable tool : Type.
Variable loader : Type.

(** A computation: from a world to a result, the world it leaves and the
    entries it adds to the log. *)
Definition M (A : Type) : Type := world -> outcome A * world * list (event tool).

Definition ret {A : Type} (a : A) : M A := fun w => (Ret a, w, []).

Definition bind {A B : Type} (m : M A) (f : A -> M B) : M B :=
  fun w =>
    match m w with
    | (Ret a, w1, t1) =>
        match f a w1 with
        | (r, w2, t2) => (r, w2, t1 ++ t2)
        end
    | (Raise e, w1, t1) => (Raise e, w1, t1)
    end.

(** [try: m  except Exception as e: h e] *)
Definition try_except {A : Type} (m : M A) (h : exn -> M A) : M A :=
  fun w =>
    match m w with
    | (Ret a, w1, t1) => (Ret a, w1, t1)
    | (Raise e, w1, t1) =>
        match h e w1 with
        | (r, w2, t2) => (r, w2, t1 ++ t2)
        end
    end.

(** A collaborator call: run it and log it with its result. *)
Definition call {A : Type} (f : world -> outcome A * world)
    (ev : outcome A -> event tool) : M A :=
  fun w => match f w with (r, w1) => (r, w1, [ev r]) end.

(** Reading a property of a collaborator, logged with the value read. *)
Definition read {A : Type} (f : world -> A) (ev : A -> event tool) : M A :=
  fun w => (Ret (f w), w, [ev (f w)]).

(** [add_span_event(name, ...)] *)
Definition add_span_event (name : string) : M unit :=
  fun w => (Ret tt, w, [EvSpan name]).

Notation "x <- m ;; k" := (bind m (fun x => k))
  (at level 61, m at next level, right associativity).
Notation "m ;;; k" := (bind m (fun _ => k))
  (at level 61, right associativity).

Variable env : collaborators world tool loader.
Variable settings : Settings.

(** *** [_download_skill_binary] *)

Definition service_token : string :=
  match INTERNAL_SERVICE_TOKEN settings with
  | Some (String c s) => String c s
  | _ => match REMOTE_STORAGE_TOKEN settings with Some t => t | None => "" end
  end.

Definition auth_headers : dict string :=
  if truthy_str service_token
  then [("Authorization", ("Bearer " ++ service_token)%string)]
  else [].

Definition _download_skill_binary (download_url skill : string) : M (option bytes) :=
  add_span_event "binary_download_started" ;;;
  try_except
    (content <- call (httpx_get env download_url auth_headers)
                     (EvHttpGet download_url auth_headers) ;;
     add_span_event "binary_download_completed" ;;;
     ret (Some content))
    (fun e =>
       match e with
       | HTTPStatusError _ =>
           add_span_event "binary_download_http_error" ;;; ret None
       | _ =>
           add_span_event "binary_download_error" ;;; ret None
       end).

(** *** [_safe_disconnect_client] *)

Definition _safe_disconnect_client (client : MCPClient) (task_id : Z) : M unit :=
  try_except
    (call (client_disconnect env client) (EvDisconnect client))
    (fun _ => ret tt).

(** *** [_load_skill_mcp_tools] *)

Definition connect_timeout : Z := 30.

(** The inner [try] of [_load_skill_mcp_tools], entered once the client
    exists.  The result is the pair ([mcp_tools], [mcp_clients]) as the two
    lists stand when the block is left. *)
Definition connect_and_list (client : MCPClient) (task_id : Z)
    : M (list tool * list MCPClient) :=
  try_except
    (call (client_connect env client connect_timeout)
          (EvConnect client connect_timeout) ;;;
     connected <- read (client_is_connected env client) (EvIsConnected client) ;;
     if (connected : bool) then
       tools <- call (client_get_tools env client) (EvGetTools client) ;;
       add_span_event "skill_mcp_connect_completed" ;;;
       ret (tools, [client])
     else
       add_span_event "skill_mcp_connect_failed" ;;;
       _safe_disconnect_client client task_id ;;;
       ret ([], []))
    (fun e =>
       match e with
       | TimeoutError =>
           add_span_event "skill_mcp_connect_timeout" ;;;
           _safe_disconnect_client client task_id ;;;
           ret ([], [])
       | _ =>
           add_span_event "skill_mcp_connect_failed" ;;;
           _safe_disconnect_client client task_id ;;;
           ret ([], [])
       end).

(** The outer [try]: its handler finds [client is None] exactly when the
    constructor raised, and otherwise disconnects the client. *)
Definition _load_skill_mcp_tools (configs : mcp_configs) (task_id : Z)
    (task_data : option (dict string)) : M (list tool * list MCPClient) :=
  match configs with
  | [] => ret ([], [])
  | _ :: _ =>
      let client := {| client_servers := configs; client_task_data := task_data |} in
      try_except
        (call (MCPClient_init env configs task_data) (EvMCPClient configs) ;;;
         add_span_event "skill_mcp_connect_started" ;;;
         try_except
           (connect_and_list client task_id)
           (fun _ =>
              add_span_event "skill_mcp_load_error" ;;;
              _safe_disconnect_client client task_id ;;;
              ret ([], [])))
        (fun _ =>
           add_span_event "skill_mcp_load_error" ;;;
           ret ([], []))
  end.

(** *** [prepare_skill_tools] *)

Section Call.

Variable task_id subtask_id user_id : Z.
Variable ws_emitter : bool.
Variable load_skill_tool : option loader.
Variable preload_skills : option (list string).
Variable user_selected_skills : option (list string).
Variable user_name auth_token : string.
Variable task_data : option (dict string).

(** [remote_url = getattr(settings, "REMOTE_STORAGE_URL", "").rstrip("/")] *)
Definition remote_url : string :=
  rstrip_slash (match REMOTE_STORAGE_URL settings with Some u => u | None => "" end).

(** [download_url = f"{remote_url}/skills/{skill_id}/binary"] *)
Definition download_url (skill_id : Z) : string :=
  (remote_url ++ "/skills/" ++ str_of_int skill_id ++ "/binary")%string.

(** The prompt injection both branches of the loop perform for a preloaded
    skill: [if load_skill_tool is not None: ... if skill_prompt: ...]. *)
Definition inject_prompt (c : skill_config) : M unit :=
  match load_skill_tool with
  | Some lt =>
      if truthy_str (cfg_prompt c) then
        let selected := is_user_selected user_selected_skills c in
        call (preload_skill_prompt env lt (skill_name c) c selected)
             (EvPreloadSkillPrompt (skill_name c) selected) ;;;
        add_span_event "skill_prompt_preloaded"
      else ret tt
  | None => ret tt
  end.

(** The body of [else: try: ... except Exception] for a public skill. *)
Definition download_and_load (c : skill_config) (provider : provider_config)
    (skill_id : Z) : M unit :=
  try_except
    (binary_data <-
       (if truthy_str remote_url && negb (skill_id =? 0) then
          add_span_event "skill_binary_download_started" ;;;
          _download_skill_binary (download_url skill_id) (skill_name c)
        else ret None) ;;
     match binary_data with
     | Some (b :: bs) =>
         add_span_event "skill_binary_download_completed" ;;;
         loaded <- call (ensure_provider_loaded env (skill_name c) provider (b :: bs) true)
                        (EvEnsureProviderLoaded (skill_name c) true) ;;
         if (loaded : bool)
         then add_span_event "skill_provider_load_completed"
         else add_span_event "skill_provider_load_failed"
     | _ => add_span_event "skill_binary_download_failed"
     end)
    (fun _ => add_span_event "skill_provider_load_failed").

(** [is_public = skill_user_id == 0] *)
Definition is_public (c : skill_config) : bool :=
  match cfg_skill_user_id c with
  | Some owner => owner =? 0
  | None => false
  end.

(** [if provider_config and skill_id: ...], the security gate included. *)
Definition load_provider (c : skill_config) : M unit :=
  match cfg_provider c, cfg_skill_id c with
  | Some provider, Some skill_id =>
      if truthy_list provider && negb (skill_id =? 0) then
        if negb (is_public c)
        then add_span_event "skill_code_load_skipped"
        else download_and_load c provider skill_id
      else ret tt
  | _, _ => ret tt
  end.

Definition make_context (c : skill_config) : SkillToolContext := {|
  ctx_task_id := task_id;
  ctx_subtask_id := subtask_id;
  ctx_user_id := user_id;
  ctx_ws_emitter := ws_emitter;
  ctx_skill_config := c;
  ctx_user_name := user_name;
  ctx_auth_token := auth_token
|}.

(** One iteration of [for skill_config in skill_configs]. *)
Definition process_skill (c : skill_config) (st : loop_state tool) : M (loop_state tool) :=
  let preload := should_preload preload_skills c in
  add_span_event "skill_processing_started" ;;;
  let batch := collect_mcp_servers preload_skills c (st_skill_mcp_configs st) in
  match tool_declarations c with
  | [] =>
      (if preload then inject_prompt c else ret tt) ;;;
      ret {| st_tools := st_tools st; st_skill_mcp_configs := batch |}
  | _ :: _ =>
      load_provider c ;;;
      skill_tools <- call (create_tools_for_skill env c (make_context c))
                          (EvCreateTools c) ;;
      match skill_tools with
      | [] => ret {| st_tools := st_tools st; st_skill_mcp_configs := batch |}
      | _ :: _ =>
          add_span_event "skill_tools_created" ;;;
          match load_skill_tool with
          | Some lt =>
              call (register_skill_tools env lt (skill_name c) skill_tools)
                   (EvRegisterSkillTools (skill_name c) skill_tools)
          | None => ret tt
          end ;;;
          if preload then
            inject_prompt c ;;;
            ret {| st_tools := st_tools st ++ skill_tools;
                   st_skill_mcp_configs := batch |}
          else
            ret {| st_tools := st_tools st; st_skill_mcp_configs := batch |}
      end
  end.

Fixpoint process_skills (skill_configs : list skill_config) (st : loop_state tool)
    : M (loop_state tool) :=
  match skill_configs with
  | [] => ret st
  | c :: rest => st' <- process_skill c st ;; process_skills rest st'
  end.

(** [if skill_mcp_configs: ...] after the loop: the pair of the returned
    [tools] and [mcp_clients]. *)
Definition connect_batch (st : loop_state tool) : M (list tool * list MCPClient) :=
  match st_skill_mcp_configs st with
  | [] => ret (st_tools st, [])
  | _ :: _ =>
      loaded <- _load_skill_mcp_tools (st_skill_mcp_configs st) task_id task_data ;;
      ret (st_tools st ++ fst loaded, [] ++ snd loaded)
  end.

Definition prepare_skill_tools (skill_configs : list skill_config)
    : M (list tool * list MCPClient) :=
  st <- process_skills skill_configs {| st_tools := []; st_skill_mcp_configs := [] |} ;;
  result <- connect_batch st ;;
  add_span_event "skill_tools_preparation_completed" ;;;
  ret result.


(** ** Reading the log *)

(** The tool lists the registry handed out, with the skill they were
    created for, in call order. *)
Definition created_of (ev : event tool) : list (skill_config * list tool) :=
  match ev with EvCreateTools c (Ret l) => [(c, l)] | _ => [] end.
Definition created (tr : list (event tool)) := flat_map created_of tr.

(** The prompt injections, as (skill name, user selected), in call order. *)
Definition injected_of (ev : event tool) : list (string * bool) :=
  match ev with EvPreloadSkillPrompt n b _ => [(n, b)] | _ => [] end.
Definition injected (tr : list (event tool)) := flat_map injected_of tr.

(** The tools a connected MCP client listed. *)
Definition remote_tools_of (ev : event tool) : list tool :=
  match ev with EvGetTools _ (Ret l) => l | _ => [] end.
Definition remote_tools (tr : list (event tool)) := flat_map remote_tools_of tr.

(** The clients constructed, by the configs they were given. *)
Definition clients_opened_of (ev : event tool) : list mcp_configs :=
  match ev with EvMCPClient configs _ => [configs] | _ => [] end.
Definition clients_opened (tr : list (event tool)) := flat_map clients_opened_of tr.

(** The clients whose [disconnect] was called. *)
Definition disconnected_of (ev : event tool) : list MCPClient :=
  match ev with EvDisconnect cl _ => [cl] | _ => [] end.
Definition disconnected (tr : list (event tool)) := flat_map disconnected_of tr.

(** Entries of the MCP client. *)
Definition is_mcp_event (ev : event tool) : bool :=
  match ev with
  | EvMCPClient _ _ | EvConnect _ _ _ | EvIsConnected _ _
  | EvGetTools _ _ | EvDisconnect _ _ => true
  | _ => false
  end.

(** Entries of the loader and of tool creation. *)
Definition is_tool_event (ev : event tool) : bool :=
  match ev with
  | EvCreateTools _ _ | EvRegisterSkillTools _ _ _ | EvPreloadSkillPrompt _ _ _ => true
  | _ => false
  end.

(** The block a skill contributes to the returned [tools]. *)
Definition active_block (cl : skill_config * list tool) : list tool :=
  if should_preload preload_skills (fst cl) then snd cl else [].

Definition has_declarations (c : skill_config) : bool :=
  truthy_list (tool_declarations c).

(** A preloaded skill with prompt text, a loader being present. *)
Definition wants_prompt (c : skill_config) : bool :=
  match load_skill_tool with
  | Some _ => should_preload preload_skills c && truthy_str (cfg_prompt c)
  | None => false
  end.

(** The batch of endpoint configs after the whole loop. *)
Definition batch_of (skill_configs : list skill_config) : mcp_configs :=
  fold_left (fun b c => collect_mcp_servers preload_skills c b) skill_configs [].

(** The collaborators the loop calls outside any [try] return. *)
Definition unguarded_calls_return : Prop :=
  (forall c ctx w, exists l w', create_tools_for_skill env c ctx w = (Ret l, w'))
  /\ (forall lt n ts w, exists w', register_skill_tools env lt n ts w = (Ret tt, w'))
  /\ (forall lt n c b w, exists w', preload_skill_prompt env lt n c b w = (Ret tt, w')).

(** [sub] keeps some elements of a list, in order. *)
Inductive subseq {A : Type} : list A -> list A -> Prop :=
| subseq_nil : subseq [] []
| subseq_skip : forall x l1 l2, subseq l1 l2 -> subseq l1 (x :: l2)
| subseq_take : forall x l1 l2, subseq l1 l2 -> subseq (x :: l1) (x :: l2).

(** The ways one run of [_load_skill_mcp_tools] on a non-empty batch can
    go: what it returns and what it logs. *)
Inductive mcp_run (configs : mcp_configs) (td : option (dict string))
    : list tool * list MCPClient -> list (event tool) -> Prop :=
| run_init_raised : forall e,
    mcp_run configs td ([], [])
      [EvMCPClient configs (Raise e); EvSpan "skill_mcp_load_error"]
| run_connected : forall l,
    let cl := {| client_servers := configs; client_task_data := td |} in
    mcp_run configs td (l, [cl])
      [EvMCPClient configs (Ret tt); EvSpan "skill_mcp_connect_started";
       EvConnect cl connect_timeout (Ret tt); EvIsConnected cl true;
       EvGetTools cl (Ret l); EvSpan "skill_mcp_connect_completed"]
| run_not_ready : forall r,
    let cl := {| client_servers := configs; client_task_data := td |} in
    mcp_run configs td ([], [])
      [EvMCPClient configs (Ret tt); EvSpan "skill_mcp_connect_started";
       EvConnect cl connect_timeout (Ret tt); EvIsConnected cl false;
       EvSpan "skill_mcp_connect_failed"; EvDisconnect cl r]
| run_connect_raised : forall e r,
    let cl := {| client_servers := configs; client_task_data := td |} in
    mcp_run configs td ([], [])
      [EvMCPClient configs (Ret tt); EvSpan "skill_mcp_connect_started";
       EvConnect cl connect_timeout (Raise e);
       EvSpan (match e with
               | TimeoutError => "skill_mcp_connect_timeout"
               | _ => "skill_mcp_connect_failed"
               end);
       EvDisconnect cl r]
| run_get_tools_raised : forall e r,
    let cl := {| client_servers := configs; client_task_data := td |} in
    mcp_run configs td ([], [])
      [EvMCPClient configs (Ret tt); EvSpan "skill_mcp_connect_started";
       EvConnect cl connect_timeout (Ret tt); EvIsConnected cl true;
       EvGetTools cl (Raise e);
       EvSpan (match e with
               | TimeoutError => "skill_mcp_connect_timeout"
               | _ => "skill_mcp_connect_failed"
               end);
       EvDisconnect cl r].

(** The batch connect went through: connected, ready, tools listed. *)
Definition batch_succeeded (tr : list (event tool)) (cl : MCPClient) (l : list tool) : Prop :=
  In (EvConnect cl connect_timeout (Ret tt)) tr
  /\ In (EvIsConnected cl true) tr
  /\ In (EvGetTools cl (Ret l)) tr.

(** The batch connect failed: the constructor raised, the connect timed out
    or raised, the client was not ready, or listing the tools raised. *)
Definition batch_failed (tr : list (event tool)) : Prop :=
  (exists configs e, In (EvMCPClient configs (Raise e)) tr)
  \/ (exists cl t e, In (EvConnect cl t (Raise e)) tr)
  \/ (exists cl, In (EvIsConnected cl false) tr)
  \/ (exists cl e, In (EvGetTools cl (Raise e)) tr).

(** Entries that are neither MCP client calls nor loader or registry
    calls: spans, downloads and provider loads. *)
Definition quiet (ev : event tool) : bool :=
  negb (is_mcp_event ev) && negb (is_tool_event ev).

(** A download or a provider load. *)
Definition is_code_load_event (ev : event tool) : bool :=
  match ev with
  | EvHttpGet _ _ _ | EvEnsureProviderLoaded _ _ _ => true
  | _ => false
  end.

(** The skill passes the test [provider_config and skill_id]. *)
Definition declares_code_provider (c : skill_config) : bool :=
  truthy_opt_list (cfg_provider c) && truthy_opt_int (cfg_skill_id c).

(** The loop state before the first iteration. *)
Definition initial_state : loop_state tool :=
  {| st_tools := []; st_skill_mcp_configs := [] |}.

(** The client [_load_skill_mcp_tools] builds for a batch. *)
Definition batch_client (configs : mcp_configs) : MCPClient :=
  {| client_servers := configs; client_task_data := task_data |}.

(** Entries a batch connect can leave: spans and MCP client calls. *)
Definition is_batch_event (ev : event tool) : bool :=
  negb (is_tool_event ev) && negb (is_code_load_event ev).

(** The entry is a collaborator call made outside any [try] that raised
    [e]. *)
Definition raised_by (e : exn) (ev : event tool) : Prop :=
  match ev with
  | EvCreateTools _ (Raise e')
  | EvRegisterSkillTools _ _ (Raise e')
  | EvPreloadSkillPrompt _ _ (Raise e') => e' = e
  | _ => False
  end.

(** The connect attempts, as (client, timeout). *)
Definition connects_of (ev : event tool) : list (MCPClient * Z) :=
  match ev with EvConnect cl t _ => [(cl, t)] | _ => [] end.
Definition connects (tr : list (event tool)) := flat_map connects_of tr.

(** The HTTP requests, as (URL, headers). *)
Definition downloads_of (ev : event tool) : list (string * dict string) :=
  match ev with EvHttpGet url headers _ => [(url, headers)] | _ => [] end.
Definition downloads (tr : list (event tool)) := flat_map downloads_of tr.


(** ** [_safe_disconnect_client] and [_load_skill_mcp_tools] *)

Lemma safe_disconnect_returns : forall client tid w,
  exists r w',
    _safe_disconnect_client client tid w = (Ret tt, w', [EvDisconnect client r])
    /\ client_disconnect env client w = (r, w').
Proof.
  intros client tid w.
  unfold _safe_disconnect_client, try_except, call, ret.
  destruct (client_disconnect env client w) as [[[] | e] w1].
  - exists (Ret tt), w1. auto.
  - exists (Raise e), w1. auto.
Qed.

(** The inner [try] never raises, so the outer handler of
    [_load_skill_mcp_tools] runs only when the constructor raised. *)
Lemma connect_and_list_returns : forall client tid w,
  exists res w' tr, connect_and_list client tid w = (Ret res, w', tr).
Proof.
  intros client tid w.
  unfold connect_and_list, try_except, bind, call, read, add_span_event, ret.
  destruct (client_connect env client connect_timeout w) as [[[] | e1] w2]; simpl.
  - destruct (client_is_connected env client w2); simpl.
    + destruct (client_get_tools env client w2) as [[l | e2] w3]; simpl; [eauto |].
      destruct (safe_disconnect_returns client tid w3) as (r & w4 & Hd & _).
      destruct e2; simpl; rewrite Hd; simpl; eauto.
    + destruct (safe_disconnect_returns client tid w2) as (r & w4 & Hd & _).
      rewrite Hd; simpl. eauto.
  - destruct (safe_disconnect_returns client tid w2) as (r & w4 & Hd & _).
    destruct e1; simpl; rewrite Hd; simpl; eauto.
Qed.

Lemma load_skill_mcp_tools_run : forall c0 rest tid td w,
  exists res w',
    _load_skill_mcp_tools (c0 :: rest) tid td w
    = (Ret res, w', snd (_load_skill_mcp_tools (c0 :: rest) tid td w))
    /\ mcp_run (c0 :: rest) td res (snd (_load_skill_mcp_tools (c0 :: rest) tid td w)).
Proof.
  intros c0 rest tid td w.
  unfold _load_skill_mcp_tools, connect_and_list, try_except, bind, call, read,
    add_span_event, ret.
  set (cl := {| client_servers := c0 :: rest; client_task_data := td |}).
  destruct (MCPClient_init env (c0 :: rest) td w) as [[[] | e0] w1]; simpl.
  2:{ eexists; eexists; split; [reflexivity | apply run_init_raised]. }
  destruct (client_connect env cl connect_timeout w1) as [[[] | e1] w2]; simpl.
  - destruct (client_is_connected env cl w2); simpl.
    + destruct (client_get_tools env cl w2) as [[l | e2] w3]; simpl.
      * eexists; eexists; split; [reflexivity | apply run_connected].
      * destruct (safe_disconnect_returns cl tid w3) as (r & w4 & Hd & _).
        pose proof (run_get_tools_raised (c0 :: rest) td e2 r) as Hrun.
        destruct e2; simpl in *; rewrite Hd; simpl;
          (eexists; eexists; split; [reflexivity | exact Hrun]).
    + destruct (safe_disconnect_returns cl tid w2) as (r & w4 & Hd & _).
      rewrite Hd; simpl.
      eexists; eexists; split; [reflexivity | apply run_not_ready].
  - destruct (safe_disconnect_returns cl tid w2) as (r & w4 & Hd & _).
    pose proof (run_connect_raised (c0 :: rest) td e1 r) as Hrun.
    destruct e1; simpl in *; rewrite Hd; simpl;
      (eexists; eexists; split; [reflexivity | exact Hrun]).
Qed.

(** ** Downloading and loading a provider *)

Lemma download_returns : forall url n w,
  exists o w' tr,
    _download_skill_binary url n w = (Ret o, w', tr)
    /\ Forall (fun ev => quiet ev = true) tr
    /\ (forall ev, In ev tr -> is_code_load_event ev = true ->
        exists r, ev = EvHttpGet url auth_headers r).
Proof.
  intros url n w.
  unfold _download_skill_binary, try_except, bind, call, add_span_event, ret.
  destruct (httpx_get env url auth_headers w) as [[content | e] w1]; simpl.
  - eexists; eexists; eexists; split; [reflexivity | split].
    + repeat constructor.
    + intros ev [H | [H | [H | []]]] Hc; subst; try discriminate. eauto.
  - destruct e; simpl;
      (eexists; eexists; eexists; split; [reflexivity | split];
       [repeat constructor
       | intros ev [H | [H | [H | []]]] Hc; subst; try discriminate; eauto]).
Qed.

Ltac forall_quiet :=
  repeat first
    [ assumption
    | apply Forall_nil
    | apply Forall_cons; [reflexivity |]
    | apply Forall_app; split ].

Ltac split_in H :=
  repeat match type of H with
         | In _ (_ ++ _) => apply in_app_or in H; destruct H as [H | H]
         | In _ (_ :: _) => destruct H as [H | H]
         | In _ [] => destruct H
         | _ \/ _ => destruct H as [H | H]
         | False => destruct H
         end.

Lemma download_and_load_returns : forall c provider sid w,
  exists w' tr,
    download_and_load c provider sid w = (Ret tt, w', tr)
    /\ Forall (fun ev => quiet ev = true) tr
    /\ (forall ev, In ev tr -> is_code_load_event ev = true ->
        (exists r, ev = EvHttpGet (download_url sid) auth_headers r)
        \/ (exists r, ev = EvEnsureProviderLoaded (skill_name c) true r)).
Proof.
  intros c provider sid w.
  unfold download_and_load, try_except, bind.
  destruct (truthy_str remote_url && negb (sid =? 0)).
  - unfold add_span_event at 1.
    destruct (download_returns (download_url sid) (skill_name c) w)
      as (o & w1 & t1 & Hd & Hq & Hev).
    rewrite Hd.
    destruct o as [[| b bs] |]; simpl.
    + eexists; eexists; split; [reflexivity | split; [forall_quiet |]].
      intros ev H Hc. split_in H; subst; try discriminate. left; auto.
    + unfold call, add_span_event, ret.
      destruct (ensure_provider_loaded env (skill_name c) provider (b :: bs) true w1)
        as [[[] | e] w2]; simpl;
        (eexists; eexists; split; [reflexivity | split; [forall_quiet |]];
         intros ev H Hc; split_in H; subst; try discriminate; eauto).
    + eexists; eexists; split; [reflexivity | split; [forall_quiet |]].
      intros ev H Hc. split_in H; subst; try discriminate. left; auto.
  - simpl. eexists; eexists; split; [reflexivity | split; [forall_quiet |]].
    intros ev H Hc. split_in H; subst; discriminate.
Qed.

Lemma load_provider_returns : forall c w,
  exists w' tr,
    load_provider c w = (Ret tt, w', tr)
    /\ Forall (fun ev => quiet ev = true) tr.
Proof.
  intros c w. unfold load_provider.
  destruct (cfg_provider c) as [provider |];
    [| exists w, []; split; [reflexivity | constructor]].
  destruct (cfg_skill_id c) as [sid |];
    [| exists w, []; split; [reflexivity | constructor]].
  destruct (truthy_list provider && negb (sid =? 0));
    [| exists w, []; split; [reflexivity | constructor]].
  destruct (negb (is_public c)).
  - eexists; eexists; split; [reflexivity | repeat constructor].
  - destruct (download_and_load_returns c provider sid w) as (w' & tr & H & Hq & _).
    eauto.
Qed.

Lemma load_provider_gate : forall c w ev,
  In ev (snd (load_provider c w)) ->
  is_code_load_event ev = true ->
  is_public c = true
  /\ declares_code_provider c = true
  /\ ((exists sid r, cfg_skill_id c = Some sid
                     /\ ev = EvHttpGet (download_url sid) auth_headers r)
      \/ (exists r, ev = EvEnsureProviderLoaded (skill_name c) true r)).
Proof.
  intros c w ev Hin Hc. unfold load_provider in Hin.
  unfold declares_code_provider.
  destruct (cfg_provider c) as [provider |]; [| destruct Hin].
  destruct (cfg_skill_id c) as [sid |]; [| destruct Hin].
  simpl.
  destruct provider as [| p ps]; [destruct Hin |].
  simpl in *.
  destruct (negb (sid =? 0)) eqn:Hsid; [| destruct Hin].
  destruct (is_public c) eqn:Hpub; simpl in Hin.
  - split; [reflexivity | split; [reflexivity |]].
    destruct (download_and_load_returns c (p :: ps) sid w) as (w' & tr & H & _ & Hev).
    rewrite H in Hin. simpl in Hin.
    destruct (Hev ev Hin Hc) as [[r Hr] | [r Hr]]; [left | right]; eauto.
  - destruct Hin as [H | []]. subst. discriminate.
Qed.

Lemma load_provider_denied : forall c w,
  declares_code_provider c = true ->
  is_public c = false ->
  load_provider c w = (Ret tt, w, [EvSpan "skill_code_load_skipped"]).
Proof.
  intros c w Hd Hp. unfold load_provider, declares_code_provider in *.
  destruct (cfg_provider c) as [[| p ps] |]; try discriminate.
  destruct (cfg_skill_id c) as [sid |]; [| discriminate].
  simpl in *. rewrite Hd, Hp. reflexivity.
Qed.

(** ** One iteration of the loop *)

Lemma quiet_projections : forall tr,
  Forall (fun ev => quiet ev = true) tr ->
  created tr = [] /\ injected tr = [] /\ remote_tools tr = []
  /\ clients_opened tr = [] /\ disconnected tr = [].
Proof.
  induction 1 as [| ev tr Hev _ IH]; [repeat split |].
  destruct IH as (H1 & H2 & H3 & H4 & H5).
  unfold created, injected, remote_tools, clients_opened, disconnected in *.
  simpl. rewrite H1, H2, H3, H4, H5.
  destruct ev; try discriminate; repeat split.
Qed.

Ltac run_process_skill :=
  unfold process_skill, inject_prompt, bind, call, add_span_event, ret;
  repeat (cbv beta iota;
          match goal with
          | |- context [load_provider ?c ?w] =>
              let w1 := fresh "w" in
              let tlp := fresh "tlp" in
              let H := fresh "Hlp" in
              let Hq := fresh "Hq" in
              destruct (load_provider_returns c w) as (w1 & tlp & H & Hq);
              rewrite H
          | |- context [create_tools_for_skill env ?c ?x ?w] =>
              destruct (create_tools_for_skill env c x w) as [[[| ? ?] | ?] ?] eqn:?
          | |- context [register_skill_tools env ?a ?b ?c ?w] =>
              destruct (register_skill_tools env a b c w) as [[[] | ?] ?] eqn:?
          | |- context [preload_skill_prompt env ?a ?b ?c ?d ?w] =>
              destruct (preload_skill_prompt env a b c d w) as [[[] | ?] ?] eqn:?
          | |- context [tool_declarations ?c] =>
              destruct (tool_declarations c) eqn:?
          | |- context [should_preload ?p ?c] =>
              destruct (should_preload p c) eqn:?
          | |- context [truthy_str (cfg_prompt ?c)] =>
              destruct (truthy_str (cfg_prompt c)) eqn:?
          | |- context [match load_skill_tool with _ => _ end] =>
              destruct load_skill_tool eqn:?
          end);
  cbv beta iota.

Lemma quiet_not_mcp : forall tr,
  Forall (fun ev => quiet ev = true) tr ->
  Forall (fun ev => is_mcp_event ev = false) tr.
Proof.
  intros tr H. eapply Forall_impl; [| exact H].
  intros ev Hq. unfold quiet in Hq.
  destruct (is_mcp_event ev); [discriminate | reflexivity].
Qed.

Ltac forall_log :=
  repeat first
    [ apply Forall_nil
    | apply Forall_cons; [reflexivity |]
    | apply Forall_app; split
    | apply quiet_not_mcp; assumption ].

(** No iteration touches the MCP client. *)
Lemma process_skill_log : forall c st w r w' tr,
  process_skill c st w = (r, w', tr) ->
  Forall (fun ev => is_mcp_event ev = false) tr.
Proof.
  intros c st w r w' tr. run_process_skill.
  all: intro H; inversion H; subst; clear H.
  all: forall_log.
Qed.

(** Downloads and provider loads of an iteration pass the gate. *)
Lemma process_skill_gate : forall c st w ev,
  In ev (snd (process_skill c st w)) ->
  is_code_load_event ev = true ->
  is_public c = true
  /\ declares_code_provider c = true
  /\ ((exists sid r, cfg_skill_id c = Some sid
                     /\ ev = EvHttpGet (download_url sid) auth_headers r)
      \/ (exists r, ev = EvEnsureProviderLoaded (skill_name c) true r)).
Proof.
  intros c st w ev. run_process_skill.
  all: simpl; intros H Hc; split_in H; subst; try discriminate.
  all: match goal with
       | Hlp : load_provider ?c0 ?w0 = _ |- _ =>
           apply (load_provider_gate c0 w0); [rewrite Hlp; assumption | assumption]
       end.
Qed.

Ltac in_quiet_absurd :=
  match goal with
  | Hq : Forall _ ?tlp, Hin : In _ ?tlp |- _ =>
      let Hx := fresh in
      pose proof (proj1 (Forall_forall _ _) Hq _ Hin) as Hx; cbv in Hx; discriminate
  end.

Ltac in_tail := right; apply in_or_app; right; simpl; eauto 10.

(** Tool creation in an iteration is for the skill of the iteration. *)
Lemma process_skill_creates_own : forall c st w c0 r0,
  In (EvCreateTools c0 r0) (snd (process_skill c st w)) ->
  c0 = c /\ has_declarations c = true.
Proof.
  intros c st w c0 r0. unfold has_declarations, truthy_list. run_process_skill.
  all: simpl; intro H; split_in H; try discriminate; try in_quiet_absurd.
  all: inversion H; subst; split; reflexivity.
Qed.

(** Tool creation is attempted for every skill with declarations. *)
Lemma process_skill_creates : forall c st w,
  has_declarations c = true ->
  exists r0, In (EvCreateTools c r0) (snd (process_skill c st w)).
Proof.
  intros c st w. unfold has_declarations, truthy_list. run_process_skill.
  all: simpl; intro Hd; try discriminate.
  all: eexists; in_tail.
Qed.

(** Created tools are registered when a loader is present. *)
Lemma process_skill_registers : forall c st w c0 t l lt,
  In (EvCreateTools c0 (Ret (t :: l))) (snd (process_skill c st w)) ->
  load_skill_tool = Some lt ->
  exists r, In (EvRegisterSkillTools (skill_name c) (t :: l) r)
               (snd (process_skill c st w)).
Proof.
  intros c st w c0 t l lt. run_process_skill.
  all: simpl; intros H Hl; split_in H; try discriminate; try in_quiet_absurd.
  all: inversion H; subst; eexists; in_tail.
Qed.

(** What is registered is what was created, under the skill's name. *)
Lemma process_skill_registered : forall c st w n ts r,
  In (EvRegisterSkillTools n ts r) (snd (process_skill c st w)) ->
  n = skill_name c /\ In (EvCreateTools c (Ret ts)) (snd (process_skill c st w)).
Proof.
  intros c st w n ts r. run_process_skill.
  all: simpl; intro H; split_in H; try discriminate; try in_quiet_absurd.
  all: inversion H; subst; split; [reflexivity | in_tail].
Qed.

Ltac use_quiet :=
  repeat match goal with
         | Hq : Forall (fun ev => quiet ev = true) ?tlp |- _ =>
             let Hc := fresh "Hc" in
             let Hi := fresh "Hi" in
             destruct (@quiet_projections _ Hq) as (Hc & Hi & _);
             unfold created in Hc; unfold injected in Hi; clear Hq
         end.

Ltac proj_simpl :=
  use_quiet; unfold created, injected; simpl;
  rewrite ?flat_map_app; simpl;
  repeat match goal with
         | H : flat_map _ _ = [] |- _ => rewrite !H
         end;
  simpl.

(** At most one prompt is injected per iteration, and only for a skill
    that wants it. *)
Lemma process_skill_injects : forall c st w,
  injected (snd (process_skill c st w)) = []
  \/ (wants_prompt c = true
      /\ injected (snd (process_skill c st w))
         = [(skill_name c, is_user_selected user_selected_skills c)]).
Proof.
  intros c st w. unfold wants_prompt. run_process_skill.
  all: proj_simpl; auto.
Qed.

(** What an iteration that returns leaves in the loop state. *)
Lemma process_skill_ret : forall c st w st' w' tr,
  process_skill c st w = (Ret st', w', tr) ->
  st_skill_mcp_configs st'
  = collect_mcp_servers preload_skills c (st_skill_mcp_configs st)
  /\ st_tools st' = st_tools st ++ flat_map active_block (created tr)
  /\ map fst (created tr) = (if has_declarations c then [c] else []).
Proof.
  intros c st w st' w' tr. unfold has_declarations, truthy_list.
  run_process_skill.
  all: intro H; inversion H; subst; clear H.
  all: unfold active_block; proj_simpl.
  all: repeat match goal with
              | H : should_preload _ _ = _ |- _ => rewrite H
              end.
  all: simpl; rewrite ?app_nil_r; auto.
  destruct (should_preload preload_skills c); rewrite app_nil_r; auto.
Qed.

(** An iteration returns when the unguarded collaborators do. *)
Lemma process_skill_returns : forall c st w,
  unguarded_calls_return ->
  exists st' w' tr, process_skill c st w = (Ret st', w', tr).
Proof.
  intros c st w (Hcreate & Hreg & Hpre). run_process_skill.
  all: try solve [eexists; eexists; eexists; reflexivity].
  all: exfalso.
  all: match goal with
       | H : create_tools_for_skill env ?a ?b ?x = (Raise _, _) |- _ =>
           destruct (Hcreate a b x) as (? & ? & Hr); rewrite Hr in H; discriminate
       | H : register_skill_tools env ?a ?b ?d ?x = (Raise _, _) |- _ =>
           destruct (Hreg a b d x) as (? & Hr); rewrite Hr in H; discriminate
       | H : preload_skill_prompt env ?a ?b ?d ?f ?x = (Raise _, _) |- _ =>
           destruct (Hpre a b d f x) as (? & Hr); rewrite Hr in H; discriminate
       end.
Qed.

(** Without tools created, the iteration of a skill with declarations
    injects no prompt. *)
Lemma process_skill_no_tools_no_prompt : forall c st w,
  has_declarations c = true ->
  In (EvCreateTools c (Ret [])) (snd (process_skill c st w)) ->
  injected (snd (process_skill c st w)) = [].
Proof.
  intros c st w. unfold has_declarations, truthy_list. run_process_skill.
  all: simpl; intros Hd H; try discriminate.
  all: split_in H; try discriminate; try in_quiet_absurd.
  all: try (inversion H; fail).
  all: proj_simpl; reflexivity.
Qed.

(** ** The loop *)

Lemma process_skills_cons : forall c rest st w,
  process_skills (c :: rest) st w
  = match process_skill c st w with
    | (Ret st1, w1, t1) =>
        match process_skills rest st1 w1 with
        | (r, w2, t2) => (r, w2, t1 ++ t2)
        end
    | (Raise e, w1, t1) => (Raise e, w1, t1)
    end.
Proof. reflexivity. Qed.

Lemma created_app : forall t1 t2, created (t1 ++ t2) = created t1 ++ created t2.
Proof. intros. apply flat_map_app. Qed.

Lemma injected_app : forall t1 t2, injected (t1 ++ t2) = injected t1 ++ injected t2.
Proof. intros. apply flat_map_app. Qed.

Lemma process_skills_ret : forall cfgs st w st' w' tr,
  process_skills cfgs st w = (Ret st', w', tr) ->
  st_skill_mcp_configs st'
  = fold_left (fun b c => collect_mcp_servers preload_skills c b) cfgs
              (st_skill_mcp_configs st)
  /\ st_tools st' = st_tools st ++ flat_map active_block (created tr)
  /\ map fst (created tr) = filter has_declarations cfgs.
Proof.
  induction cfgs as [| c rest IH]; intros st w st' w' tr H.
  - inversion H; subst. simpl. rewrite app_nil_r. auto.
  - rewrite process_skills_cons in H.
    destruct (process_skill c st w) as [[[st1 | e] w1] t1] eqn:Hc; [| discriminate].
    destruct (process_skills rest st1 w1) as [[r w2] t2] eqn:Hr.
    inversion H; subst; clear H.
    destruct (process_skill_ret _ _ _ Hc) as (Hb1 & Ht1 & Hm1).
    destruct (IH _ _ _ _ _ Hr) as (Hb2 & Ht2 & Hm2).
    simpl. rewrite Hb2, Hb1, Ht2, Ht1, created_app, flat_map_app, map_app, Hm1, Hm2.
    rewrite <- app_assoc.
    destruct (has_declarations c); auto.
Qed.

Lemma process_skills_log : forall cfgs st w,
  Forall (fun ev => is_mcp_event ev = false) (snd (process_skills cfgs st w)).
Proof.
  induction cfgs as [| c rest IH]; intros st w; [constructor |].
  rewrite process_skills_cons.
  destruct (process_skill c st w) as [[[st1 | e] w1] t1] eqn:Hc.
  - specialize (IH st1 w1).
    destruct (process_skills rest st1 w1) as [[r w2] t2]. simpl in *.
    apply Forall_app. split; [apply (process_skill_log _ _ _ Hc) | exact IH].
  - simpl. apply (process_skill_log _ _ _ Hc).
Qed.

Lemma process_skills_returns : forall cfgs st w,
  unguarded_calls_return ->
  exists st' w' tr, process_skills cfgs st w = (Ret st', w', tr).
Proof.
  induction cfgs as [| c rest IH]; intros st w Hu.
  - exists st, w, []. reflexivity.
  - rewrite process_skills_cons.
    destruct (process_skill_returns c st w Hu) as (st1 & w1 & t1 & Hc). rewrite Hc.
    destruct (IH st1 w1 Hu) as (st' & w' & t2 & Hr). rewrite Hr. eauto.
Qed.

(** Every entry of the loop's log is an entry of one iteration, whose
    whole log is part of the loop's. *)
Lemma process_skills_in : forall cfgs st w ev,
  In ev (snd (process_skills cfgs st w)) ->
  exists c st0 w0,
    In c cfgs
    /\ In ev (snd (process_skill c st0 w0))
    /\ incl (snd (process_skill c st0 w0)) (snd (process_skills cfgs st w)).
Proof.
  induction cfgs as [| c rest IH]; intros st w ev H; [destruct H |].
  rewrite process_skills_cons in *.
  destruct (process_skill c st w) as [[[st1 | e] w1] t1] eqn:Hc.
  - specialize (IH st1 w1 ev).
    destruct (process_skills rest st1 w1) as [[r w2] t2]. simpl in *.
    apply in_app_or in H. destruct H as [H | H].
    + exists c, st, w. rewrite Hc. simpl.
      split; [auto | split; [exact H | apply incl_appl, incl_refl]].
    + destruct (IH H) as (c' & st0 & w0 & Hin & Hev & Hincl).
      exists c', st0, w0.
      split; [auto | split; [exact Hev | apply incl_appr, Hincl]].
  - simpl in H. exists c, st, w. rewrite Hc. simpl.
    split; [auto | split; [exact H | apply incl_refl]].
Qed.

Lemma subseq_nil_l : forall (A : Type) (l : list A), subseq [] l.
Proof. induction l; constructor; auto. Qed.

Lemma subseq_filter_skip : forall (A : Type) (p : A -> bool) (x : A) sub l,
  subseq sub (filter p l) -> subseq sub (filter p (x :: l)).
Proof.
  intros A p x sub l H. simpl. destruct (p x); [apply subseq_skip |]; exact H.
Qed.

(** Prompt injections follow the input order of the skills that want
    one. *)
Lemma process_skills_injects : forall cfgs st w,
  exists sub,
    subseq sub (filter wants_prompt cfgs)
    /\ injected (snd (process_skills cfgs st w))
       = map (fun c => (skill_name c, is_user_selected user_selected_skills c)) sub.
Proof.
  induction cfgs as [| c rest IH]; intros st w.
  - exists []. split; [constructor | reflexivity].
  - rewrite process_skills_cons.
    pose proof (process_skill_injects c st w) as Hi.
    destruct (process_skill c st w) as [[[st1 | e] w1] t1] eqn:Hc; simpl in Hi.
    + destruct (IH st1 w1) as (sub & Hsub & Hinj).
      destruct (process_skills rest st1 w1) as [[r w2] t2]. simpl in *.
      rewrite injected_app, Hinj.
      destruct Hi as [Hi | [Hw Hi]]; rewrite Hi.
      * exists sub. split; [apply subseq_filter_skip; exact Hsub | reflexivity].
      * exists (c :: sub). split; [| reflexivity].
        simpl. rewrite Hw. apply subseq_take. exact Hsub.
    + simpl. destruct Hi as [Hi | [Hw Hi]]; rewrite Hi.
      * exists []. split; [| reflexivity].
        apply subseq_nil_l.
      * exists [c]. split; [| reflexivity].
        simpl. rewrite Hw. apply subseq_take.
        apply subseq_nil_l.
Qed.

(** ** After the loop *)

Lemma mcp_run_log : forall configs td res tr,
  mcp_run configs td res tr ->
  Forall (fun ev => is_batch_event ev = true) tr.
Proof. intros configs td res tr H. inversion H; subst; repeat constructor. Qed.

Lemma connect_batch_run : forall st w,
  exists mt cls w' tr,
    connect_batch st w = (Ret (st_tools st ++ mt, cls), w', tr)
    /\ ((st_skill_mcp_configs st = [] /\ mt = [] /\ cls = [] /\ tr = [])
        \/ (st_skill_mcp_configs st <> []
            /\ mcp_run (st_skill_mcp_configs st) task_data (mt, cls) tr)).
Proof.
  intros st w. unfold connect_batch.
  destruct (st_skill_mcp_configs st) as [| c0 rest] eqn:Hb.
  - exists [], [], w, []. unfold ret. rewrite app_nil_r.
    split; [reflexivity | left; auto].
  - destruct (load_skill_mcp_tools_run c0 rest task_id task_data w)
      as ([mt cls] & w' & Hrun & Hshape).
    unfold bind, ret. rewrite Hrun. simpl. rewrite app_nil_r.
    exists mt, cls, w'. eexists. split; [reflexivity |].
    right. split; [discriminate | exact Hshape].
Qed.

Lemma prepare_skill_tools_after_loop : forall cfgs w st w1 t1,
  process_skills cfgs initial_state w = (Ret st, w1, t1) ->
  exists mt cls w' t2,
    prepare_skill_tools cfgs w
    = (Ret (st_tools st ++ mt, cls), w',
       t1 ++ t2 ++ [EvSpan "skill_tools_preparation_completed"])
    /\ ((st_skill_mcp_configs st = [] /\ mt = [] /\ cls = [] /\ t2 = [])
        \/ (st_skill_mcp_configs st <> []
            /\ mcp_run (st_skill_mcp_configs st) task_data (mt, cls) t2)).
Proof.
  intros cfgs w st w1 t1 Hloop.
  destruct (connect_batch_run st w1) as (mt & cls & w' & t2 & Hc & Hshape).
  exists mt, cls, w', t2. split; [| exact Hshape].
  unfold prepare_skill_tools, bind. fold initial_state.
  rewrite Hloop, Hc. reflexivity.
Qed.

Lemma prepare_skill_tools_raises : forall cfgs w e w1 t1,
  process_skills cfgs initial_state w = (Raise e, w1, t1) ->
  prepare_skill_tools cfgs w = (Raise e, w1, t1).
Proof.
  intros cfgs w e w1 t1 Hloop.
  unfold prepare_skill_tools, bind. fold initial_state. rewrite Hloop. reflexivity.
Qed.

Lemma batch_of_loop : forall cfgs w st w1 t1,
  process_skills cfgs initial_state w = (Ret st, w1, t1) ->
  st_skill_mcp_configs st = batch_of cfgs.
Proof.
  intros cfgs w st w1 t1 H. apply process_skills_ret in H. tauto.
Qed.

Lemma prepare_skill_tools_ret : forall cfgs w tools clients w' tr,
  prepare_skill_tools cfgs w = (Ret (tools, clients), w', tr) ->
  exists st w1 t1 mt t2,
    process_skills cfgs initial_state w = (Ret st, w1, t1)
    /\ tools = st_tools st ++ mt
    /\ tr = t1 ++ t2 ++ [EvSpan "skill_tools_preparation_completed"]
    /\ ((batch_of cfgs = [] /\ mt = [] /\ clients = [] /\ t2 = [])
        \/ (batch_of cfgs <> []
            /\ mcp_run (batch_of cfgs) task_data (mt, clients) t2)).
Proof.
  intros cfgs w tools clients w' tr H.
  destruct (process_skills cfgs initial_state w) as [[[st | e] w1] t1] eqn:Hloop.
  - destruct (prepare_skill_tools_after_loop _ _ Hloop)
      as (mt & cls & w2 & t2 & Hp & Hshape).
    rewrite Hp in H. inversion H; subst; clear H.
    rewrite (batch_of_loop _ _ Hloop) in Hshape.
    exists st, w1, t1, mt, t2. auto.
  - rewrite (prepare_skill_tools_raises _ _ Hloop) in H. discriminate.
Qed.

(** The log of a call: the loop's log, then spans and MCP client calls. *)
Lemma prepare_skill_tools_log : forall cfgs w,
  exists t2,
    snd (prepare_skill_tools cfgs w)
    = snd (process_skills cfgs initial_state w) ++ t2
    /\ Forall (fun ev => is_batch_event ev = true) t2.
Proof.
  intros cfgs w.
  destruct (process_skills cfgs initial_state w) as [[[st | e] w1] t1] eqn:Hloop.
  - destruct (prepare_skill_tools_after_loop _ _ Hloop)
      as (mt & cls & w2 & t2 & Hp & Hshape).
    rewrite Hp. simpl. eexists. split; [reflexivity |].
    apply Forall_app. split; [| repeat constructor].
    destruct Hshape as [(_ & _ & _ & Ht2) | (_ & Hrun)].
    + subst. constructor.
    + apply (mcp_run_log Hrun).
  - rewrite (prepare_skill_tools_raises _ _ Hloop). simpl.
    exists []. rewrite app_nil_r. split; [reflexivity | constructor].
Qed.

(** Loader, registry and download entries of a call come from an
    iteration of the loop. *)
Lemma prepare_skill_tools_in : forall cfgs w ev,
  In ev (snd (prepare_skill_tools cfgs w)) ->
  is_batch_event ev = false ->
  exists c st0 w0,
    In c cfgs
    /\ In ev (snd (process_skill c st0 w0))
    /\ incl (snd (process_skill c st0 w0)) (snd (prepare_skill_tools cfgs w)).
Proof.
  intros cfgs w ev Hin Hev.
  destruct (prepare_skill_tools_log cfgs w) as (t2 & Hlog & Hb).
  rewrite Hlog in *. apply in_app_or in Hin. destruct Hin as [Hin | Hin].
  - destruct (process_skills_in _ _ _ _ Hin) as (c & st0 & w0 & Hc & Hi & Hincl).
    exists c, st0, w0. split; [exact Hc | split; [exact Hi |]].
    apply incl_appl. exact Hincl.
  - rewrite Forall_forall in Hb. rewrite (Hb _ Hin) in Hev. discriminate.
Qed.

Lemma is_public_owner : forall c,
  is_public c = true <-> cfg_skill_user_id c = Some 0.
Proof.
  intro c. unfold is_public. destruct (cfg_skill_user_id c) as [z |].
  - rewrite Z.eqb_eq. split; [intros ->; reflexivity | intro H; inversion H; reflexivity].
  - split; discriminate.
Qed.

Lemma remote_tools_app : forall t1 t2,
  remote_tools (t1 ++ t2) = remote_tools t1 ++ remote_tools t2.
Proof. intros. apply flat_map_app. Qed.

Lemma no_mcp_projections : forall tr,
  Forall (fun ev => is_mcp_event ev = false) tr ->
  remote_tools tr = [] /\ clients_opened tr = [] /\ disconnected tr = [].
Proof.
  induction 1 as [| ev tr Hev _ (H1 & H2 & H3)]; [auto |].
  unfold remote_tools, clients_opened, disconnected in *. simpl.
  rewrite H1, H2, H3. destruct ev; try discriminate; auto.
Qed.

Lemma batch_projections : forall tr,
  Forall (fun ev => is_batch_event ev = true) tr ->
  created tr = [] /\ injected tr = [].
Proof.
  induction 1 as [| ev tr Hev _ (H1 & H2)]; [auto |].
  unfold created, injected in *. simpl.
  rewrite H1, H2. destruct ev; try discriminate; auto.
Qed.

(** The tools and the log of a call that returns. *)
Lemma prepare_skill_tools_shape : forall cfgs w tools clients w' tr,
  prepare_skill_tools cfgs w = (Ret (tools, clients), w', tr) ->
  map fst (created tr) = filter has_declarations cfgs
  /\ tools = flat_map active_block (created tr) ++ remote_tools tr.
Proof.
  intros cfgs w tools clients w' tr H.
  destruct (prepare_skill_tools_ret _ _ H)
    as (st & w1 & t1 & mt & t2 & Hloop & Ht & Htr & Hshape).
  destruct (process_skills_ret _ _ _ Hloop) as (_ & Htools & Hcreated).
  pose proof (process_skills_log cfgs initial_state w) as Hlog.
  rewrite Hloop in Hlog. simpl in Hlog.
  destruct (no_mcp_projections Hlog) as (Hr1 & _).
  assert (Hb : Forall (fun ev => is_batch_event ev = true)
                 (t2 ++ [EvSpan "skill_tools_preparation_completed"])).
  { apply Forall_app. split; [| repeat constructor].
    destruct Hshape as [(_ & _ & _ & ->) | (_ & Hrun)];
      [constructor | apply (mcp_run_log Hrun)]. }
  destruct (batch_projections Hb) as (Hc2 & _).
  assert (Hmt : remote_tools t2 = mt).
  { destruct Hshape as [(_ & -> & _ & ->) | (_ & Hrun)]; [reflexivity |].
    inversion Hrun; subst; unfold remote_tools; simpl;
      rewrite ?app_nil_r; reflexivity. }
  subst tr tools.
  rewrite created_app, Hc2, app_nil_r.
  rewrite !remote_tools_app, Hr1, Hmt. simpl.
  rewrite app_nil_r, Htools. simpl. auto.
Qed.

(** ** The batch of endpoint configs *)

Lemma dict_set_keys : forall (V : Type) (d : dict V) k v k',
  In k' (keys (dict_set d k v)) <-> In k' (keys d) \/ k' = k.
Proof.
  unfold keys. induction d as [| [k0 v0] rest IH]; intros k v k'.
  - simpl. intuition auto.
  - simpl. destruct (String.eqb k0 k) eqn:Hk.
    + apply String.eqb_eq in Hk. subst. simpl. intuition auto.
    + simpl. rewrite IH. tauto.
Qed.

Lemma merge_mcp_servers_keys : forall skill servers b k,
  In k (keys (merge_mcp_servers skill servers b)) <->
  In k (keys b) \/ exists e, In e (keys servers) /\ k = prefixed_name skill e.
Proof.
  intros skill servers. unfold merge_mcp_servers.
  induction servers as [| [e cfg] rest IH]; intros b k; simpl.
  - split; [auto | intros [H | (e & [] & _)]; exact H].
  - rewrite IH, dict_set_keys. simpl. split.
    + intros [[H | H] | (e' & He & Hk)]; eauto 6.
    + intros [H | (e' & [He | He] & Hk)]; subst; eauto.
Qed.

Lemma collect_not_preloaded : forall c b,
  should_preload preload_skills c = false ->
  collect_mcp_servers preload_skills c b = b.
Proof.
  intros c b H. unfold collect_mcp_servers. rewrite H.
  destruct (mcp_servers c) as [[| s rest] |]; reflexivity.
Qed.

Lemma collect_no_servers : forall c b,
  truthy_opt_list (mcp_servers c) = false ->
  collect_mcp_servers preload_skills c b = b.
Proof.
  intros c b H. unfold collect_mcp_servers.
  destruct (mcp_servers c) as [[| s rest] |]; try reflexivity. discriminate.
Qed.

(** Every key of the batch is the prefixed name of an endpoint of a
    preloaded skill. *)
Lemma batch_keys_prefixed : forall cfgs b k,
  In k (keys (fold_left (fun b c => collect_mcp_servers preload_skills c b) cfgs b)) ->
  In k (keys b)
  \/ exists c servers e,
       In c cfgs /\ should_preload preload_skills c = true
       /\ mcp_servers c = Some servers /\ In e (keys servers)
       /\ k = prefixed_name (skill_name c) e.
Proof.
  induction cfgs as [| c rest IH]; intros b k H; simpl in H; [auto |].
  destruct (IH _ _ H) as [Hk | (c' & servers & e & Hc & Hp & Hs & He & Hk)].
  - unfold collect_mcp_servers in Hk.
    destruct (mcp_servers c) as [[| s ss] |] eqn:Hm; auto.
    destruct (should_preload preload_skills c) eqn:Hp; auto.
    apply merge_mcp_servers_keys in Hk. destruct Hk as [Hk | (e & He & Hk)]; auto.
    right. exists c, (s :: ss), e. simpl. auto 6.
  - right. exists c', servers, e. simpl. auto 6.
Qed.

Lemma batch_of_nothing : forall cfgs,
  (forall c, In c cfgs -> should_preload preload_skills c = true ->
             truthy_opt_list (mcp_servers c) = false) ->
  batch_of cfgs = [].
Proof.
  intros cfgs H. unfold batch_of.
  assert (G : forall b,
             fold_left (fun b c => collect_mcp_servers preload_skills c b) cfgs b = b).
  { induction cfgs as [| c rest IH]; intro b; simpl; [reflexivity |].
    rewrite IH by (intros; apply H; simpl; auto).
    destruct (should_preload preload_skills c) eqn:Hp.
    - apply collect_no_servers. apply H; simpl; auto.
    - apply collect_not_preloaded. exact Hp. }
  apply G.
Qed.

Lemma append_inv_head : forall s a b : string,
  (s ++ a)%string = (s ++ b)%string -> a = b.
Proof.
  induction s as [| ch s IH]; intros a b H; simpl in H; [exact H |].
  inversion H. auto.
Qed.

(** Two endpoints of one skill get different keys. *)
Lemma prefixed_name_same_skill : forall skill e1 e2,
  prefixed_name skill e1 = prefixed_name skill e2 -> e1 = e2.
Proof.
  intros skill e1 e2 H. unfold prefixed_name in H.
  apply append_inv_head in H. apply (append_inv_head "_") in H. exact H.
Qed.

(** ** The claims *)

(** C1 (security gate).  Every download and every provider load a call
    attempts is for a skill of the input that declares a code provider, has
    a skill id, and is owned by the public owner 0.  For a skill that
    declares a code provider and whose owner is anything else, or absent,
    the provider step returns at once, leaving the world as it was and only
    the span [skill_code_load_skipped] in the log; its iteration attempts no
    download and no load, and creates the skill's tools; and a call whose
    unguarded collaborators return goes on to create the tools of every
    skill with declarations, in input order. *)
Theorem C1_security_gate : forall cfgs w,
  (forall ev, In ev (snd (prepare_skill_tools cfgs w)) ->
     is_code_load_event ev = true ->
     exists c, In c cfgs
       /\ cfg_skill_user_id c = Some 0
       /\ declares_code_provider c = true
       /\ ((exists sid r, cfg_skill_id c = Some sid
                          /\ ev = EvHttpGet (download_url sid) auth_headers r)
           \/ (exists r, ev = EvEnsureProviderLoaded (skill_name c) true r)))
  /\ (forall c st w0,
        declares_code_provider c = true ->
        cfg_skill_user_id c <> Some 0 ->
        load_provider c w0 = (Ret tt, w0, [EvSpan "skill_code_load_skipped"])
        /\ (forall ev, In ev (snd (process_skill c st w0)) ->
              is_code_load_event ev = false)
        /\ (has_declarations c = true ->
            exists r, In (EvCreateTools c r) (snd (process_skill c st w0))))
  /\ (unguarded_calls_return ->
      exists res w' tr,
        prepare_skill_tools cfgs w = (Ret res, w', tr)
        /\ map fst (created tr) = filter has_declarations cfgs).
Proof.
  intros cfgs w. split; [| split].
  - intros ev Hin Hev.
    assert (Hb : is_batch_event ev = false).
    { unfold is_batch_event. rewrite Hev. apply andb_false_r. }
    destruct (prepare_skill_tools_in _ _ _ Hin Hb) as (c & st0 & w0 & Hc & Hi & _).
    destruct (process_skill_gate _ _ _ _ Hi Hev) as (Hpub & Hdecl & Hshape).
    exists c. rewrite <- is_public_owner. auto.
  - intros c st w0 Hdecl Howner.
    assert (Hpub : is_public c = false).
    { destruct (is_public c) eqn:Hp; [| reflexivity].
      apply is_public_owner in Hp. contradiction. }
    split; [apply load_provider_denied; assumption | split].
    + intros ev Hin. destruct (is_code_load_event ev) eqn:Hev; [| reflexivity].
      destruct (process_skill_gate _ _ _ _ Hin Hev) as (Hp & _). congruence.
    + intro Hd. apply process_skill_creates. exact Hd.
  - intro Hu.
    destruct (process_skills_returns cfgs initial_state w Hu) as (st & w1 & t1 & Hloop).
    destruct (prepare_skill_tools_after_loop _ _ Hloop)
      as (mt & cls & w' & t2 & Hp & _).
    eexists; eexists; eexists. split; [exact Hp |].
    apply (prepare_skill_tools_shape _ _ Hp).
Qed.

(** C2 (session resource safety).  [_safe_disconnect_client] always
    returns, whatever the client's [disconnect] does.  A run of
    [_load_skill_mcp_tools] on a non-empty batch always returns; if the
    client was constructed, then either it is the one returned client and
    [disconnect] was never called, or nothing is returned and [disconnect]
    was called on it exactly once; if the constructor raised, no client is
    returned and none is disconnected. *)
Theorem C2_session_resource_safety : forall c0 rest tid td w,
  let configs := c0 :: rest in
  let client := {| client_servers := configs; client_task_data := td |} in
  let tr := snd (_load_skill_mcp_tools configs tid td w) in
  (forall cl t w0, exists r w1,
      _safe_disconnect_client cl t w0 = (Ret tt, w1, [EvDisconnect cl r])
      /\ client_disconnect env cl w0 = (r, w1))
  /\ (exists tools clients w',
        _load_skill_mcp_tools configs tid td w = (Ret (tools, clients), w', tr)
        /\ (In (EvMCPClient configs (Ret tt)) tr ->
            (clients = [client] /\ disconnected tr = [])
            \/ (clients = [] /\ disconnected tr = [client]))
        /\ ((exists e, In (EvMCPClient configs (Raise e)) tr) ->
            clients = [] /\ disconnected tr = [])
        /\ clients_opened tr = [configs]).
Proof.
  intros c0 rest tid td w configs client tr. split.
  - intros cl t w0. apply safe_disconnect_returns.
  - destruct (load_skill_mcp_tools_run c0 rest tid td w)
      as ([tools clients] & w' & Hrun & Hshape).
    exists tools, clients, w'. fold configs tr in Hrun, Hshape.
    split; [exact Hrun |].
    clearbody tr. unfold client. clear Hrun.
    inversion Hshape; subst; unfold disconnected, clients_opened; simpl.
    all: split;
      [ intro H; split_in H; try discriminate;
        first [left; split; reflexivity | right; split; reflexivity]
      | split;
        [ intros (e' & H); split_in H; try discriminate; split; reflexivity
        | reflexivity ] ].
Qed.

(** C3 (provider-load failure isolation).  The provider step of an
    iteration returns whatever the download and the provider load do, so a
    failure there never leaves the loop.  With collaborators that return on
    the calls made outside any [try], and with no assumption on the download
    or on the provider load, a call returns; every skill with declarations,
    one whose provider failed to load included, had its tools created, in
    input order; and the returned tools are the blocks of the preloaded
    skills in that order, followed by the tools of the batch connect. *)
Theorem C3_provider_failure_isolated : forall cfgs w,
  unguarded_calls_return ->
  (forall c w0, exists w1 tlp, load_provider c w0 = (Ret tt, w1, tlp))
  /\ exists tools clients w' tr,
       prepare_skill_tools cfgs w = (Ret (tools, clients), w', tr)
       /\ map fst (created tr) = filter has_declarations cfgs
       /\ tools = flat_map active_block (created tr) ++ remote_tools tr.
Proof.
  intros cfgs w Hu. split.
  - intros c w0. destruct (load_provider_returns c w0) as (w1 & tlp & H & _). eauto.
  - destruct (process_skills_returns cfgs initial_state w Hu) as (st & w1 & t1 & Hloop).
    destruct (prepare_skill_tools_after_loop _ _ Hloop)
      as (mt & cls & w' & t2 & Hp & _).
    eexists; eexists; eexists; eexists. split; [exact Hp |].
    apply (prepare_skill_tools_shape _ _ Hp).
Qed.

(** C4 (batch remote connect outcome).  When the loop has returned with a
    non-empty batch, the call returns: no failure of the batch connect
    propagates.  One client is constructed in the whole call, for the whole
    batch, and every connect is under the 30 second timeout.  If the connect
    returned, the client was ready and its tools were listed, those tools
    follow the loop's tools in the result and the client is the one session
    returned; if the constructor raised, the connect timed out or raised,
    the client was not ready or listing the tools raised, the result is the
    loop's tools and no session.  One of the two is the case. *)
Theorem C4_batch_connect_outcome : forall cfgs w st w1 t1,
  process_skills cfgs initial_state w = (Ret st, w1, t1) ->
  st_skill_mcp_configs st <> [] ->
  let client := batch_client (st_skill_mcp_configs st) in
  exists mt cls w' t2,
    prepare_skill_tools cfgs w
    = (Ret (st_tools st ++ mt, cls), w',
       t1 ++ t2 ++ [EvSpan "skill_tools_preparation_completed"])
    /\ clients_opened (t1 ++ t2) = [st_skill_mcp_configs st]
    /\ (forall cl t r, In (EvConnect cl t r) (t1 ++ t2) -> t = 30 /\ cl = client)
    /\ (forall cl l, batch_succeeded t2 cl l -> mt = l /\ cls = [client] /\ cl = client)
    /\ (batch_failed t2 -> mt = [] /\ cls = [])
    /\ (batch_failed t2 \/ exists l, batch_succeeded t2 client l).
Proof.
  intros cfgs w st w1 t1 Hloop Hne client.
  destruct (prepare_skill_tools_after_loop _ _ Hloop)
    as (mt & cls & w' & t2 & Hp & Hshape).
  exists mt, cls, w', t2. split; [exact Hp |].
  destruct Hshape as [(Hnil & _) | (_ & Hrun)]; [contradiction |].
  pose proof (process_skills_log cfgs initial_state w) as Hlog.
  rewrite Hloop in Hlog. simpl in Hlog.
  destruct (no_mcp_projections Hlog) as (_ & Hopen & _).
  assert (Hnc : forall cl t r, In (EvConnect cl t r) t1 -> False).
  { intros cl tmo res Hin. rewrite Forall_forall in Hlog.
    specialize (Hlog _ Hin). discriminate. }
  unfold clients_opened in *. rewrite flat_map_app, Hopen. simpl.
  unfold client, batch_client. clear Hp Hlog Hopen Hloop.
  unfold batch_succeeded, batch_failed.
  inversion Hrun; subst; simpl.
  all: split; [reflexivity |].
  all: split;
    [ intros cl0 tmo res H; apply in_app_or in H; destruct H as [H | H];
      [ destruct (Hnc _ _ _ H)
      | split_in H; try discriminate; inversion H; subst; split; reflexivity ]
    |].
  all: split;
    [ intros cl0 ls (Hc & Hr & Hg); split_in Hg; try discriminate;
      try (split_in Hr; discriminate); try (split_in Hc; discriminate);
      inversion Hg; subst; repeat split; reflexivity
    |].
  all: split;
    [ intro Hf;
      first
        [ split; reflexivity
        | exfalso;
          destruct Hf as [(cf & e0 & H) | [(cl0 & tmo & e0 & H) | [(cl0 & H) | (cl0 & e0 & H)]]];
          split_in H; discriminate ]
    |].
  - left. left. exists (st_skill_mcp_configs st), e. simpl. auto.
  - right. eexists. repeat split; simpl; auto 8.
  - left. right. right. left. eexists. simpl. auto 8.
  - left. right. left. eexists; eexists; eexists. simpl. auto 8.
  - left. right. right. right. eexists; eexists. simpl. auto 8.
Qed.

(** C7 (registration regardless of preload).  With a loader present,
    every non-empty list of tools the registry created for a skill during a
    call is registered with the loader under the skill's name; nothing in
    the statement depends on whether the skill is preloaded.  And nothing
    else is registered: a registration is of the tools created for a skill
    of the input, under its name. *)
Theorem C7_registration_regardless_of_preload : forall cfgs w lt c l t,
  load_skill_tool = Some lt ->
  In (EvCreateTools c (Ret l)) (snd (prepare_skill_tools cfgs w)) ->
  In t l ->
  In c cfgs
  /\ (exists r, In (EvRegisterSkillTools (skill_name c) l r)
                   (snd (prepare_skill_tools cfgs w)))
  /\ (forall n ts r, In (EvRegisterSkillTools n ts r) (snd (prepare_skill_tools cfgs w)) ->
        exists c', In c' cfgs /\ n = skill_name c'
                   /\ In (EvCreateTools c' (Ret ts)) (snd (prepare_skill_tools cfgs w))).
Proof.
  intros cfgs w lt c l t Hlt Hin Ht.
  destruct (prepare_skill_tools_in _ _ _ Hin eq_refl)
    as (c' & st0 & w0 & Hc & Hi & Hincl).
  destruct (process_skill_creates_own _ _ _ _ _ Hi) as (Heq & _). subst c'.
  split; [exact Hc | split].
  - destruct l as [| t0 l0]; [destruct Ht |].
    destruct (@process_skill_registers c st0 w0 c t0 l0 lt Hi Hlt) as (r & Hr).
    exists r. apply Hincl. exact Hr.
  - intros n ts r Hreg.
    destruct (prepare_skill_tools_in _ _ _ Hreg eq_refl)
      as (c' & st1 & w2 & Hc' & Hi' & Hincl').
    destruct (process_skill_registered _ _ _ _ _ _ Hi') as (Hn & Hcr).
    exists c'. split; [exact Hc' | split; [exact Hn |]].
    apply Hincl'. exact Hcr.
Qed.

(** C8 (preload determination).  A skill is treated as preloaded exactly
    when the preload list is present and holds the skill's name; with no
    preload list no skill is preloaded: a call that returns then returns no
    tools and no session, and injects no prompt. *)
Theorem C8_preload_determination : forall ps c,
  (should_preload ps c = true <->
   exists names, ps = Some names /\ In (skill_name c) names)
  /\ should_preload None c = false
  /\ (forall cfgs w tools clients w' tr,
        preload_skills = None ->
        prepare_skill_tools cfgs w = (Ret (tools, clients), w', tr) ->
        tools = [] /\ clients = [] /\ injected tr = []).
Proof.
  intros ps c. split; [| split; [reflexivity |]].
  - unfold should_preload, str_in. destruct ps as [names |].
    + rewrite existsb_exists. split.
      * intros (x & Hx & Heq). apply String.eqb_eq in Heq. subst.
        exists names. auto.
      * intros (names' & Heq & Hin). inversion Heq; subst.
        exists (skill_name c). split; [exact Hin | apply String.eqb_refl].
    + split; [discriminate | intros (names & H & _); discriminate].
  - intros cfgs w tools clients w' tr Hnone Hret.
    assert (Hno : forall c0, should_preload preload_skills c0 = false).
    { intro c0. rewrite Hnone. reflexivity. }
    assert (Hbatch : batch_of cfgs = []).
    { apply batch_of_nothing. intros c0 _ Hp. rewrite Hno in Hp. discriminate. }
    destruct (prepare_skill_tools_shape _ _ Hret) as (_ & Htools).
    destruct (prepare_skill_tools_ret _ _ Hret)
      as (st & w1 & t1 & mt & t2 & Hloop & Ht & Htr & Hshape).
    destruct Hshape as [(_ & Hmt & Hcls & Ht2) | (Hne & _)]; [| contradiction].
    assert (Hblocks : forall l, flat_map active_block l = []).
    { induction l as [| x l IH]; [reflexivity |].
      simpl. unfold active_block at 1. rewrite Hno, IH. reflexivity. }
    destruct (process_skills_ret _ _ _ Hloop) as (_ & Hst & _).
    rewrite Hblocks in Hst. simpl in Hst.
    split; [rewrite Ht, Hst, Hmt; reflexivity | split; [exact Hcls |]].
    destruct (process_skills_injects cfgs initial_state w) as (sub & Hsub & Hinj).
    rewrite Hloop in Hinj. simpl in Hinj.
    assert (Hfilter : filter wants_prompt cfgs = []).
    { clear - Hno. induction cfgs as [| c0 rest IH]; [reflexivity |].
      simpl. unfold wants_prompt at 1. rewrite Hno.
      destruct load_skill_tool; exact IH. }
    rewrite Hfilter in Hsub. inversion Hsub; subst sub.
    rewrite Htr, Ht2, injected_app, Hinj. reflexivity.
Qed.

(** C9 (deterministic aggregation order).  In a call that returns, tools
    were created for the skills with declarations in input order, one
    creation per skill; the returned tools are, in that same order, the
    block created for each preloaded skill, whole and contiguous, followed
    by all tools of the batch connect; and the prompt injections in the log
    are those of a selection, in input order, of the skills that want a
    prompt. *)
Theorem C9_aggregation_order : forall cfgs w tools clients w' tr,
  prepare_skill_tools cfgs w = (Ret (tools, clients), w', tr) ->
  map fst (created tr) = filter has_declarations cfgs
  /\ tools = flat_map active_block (created tr) ++ remote_tools tr
  /\ exists sub,
       subseq sub (filter wants_prompt cfgs)
       /\ injected tr
          = map (fun c => (skill_name c, is_user_selected user_selected_skills c)) sub.
Proof.
  intros cfgs w tools clients w' tr Hret.
  destruct (prepare_skill_tools_shape _ _ Hret) as (Hcreated & Htools).
  split; [exact Hcreated | split; [exact Htools |]].
  destruct (process_skills_injects cfgs initial_state w) as (sub & Hsub & Hinj).
  exists sub. split; [exact Hsub |].
  destruct (prepare_skill_tools_log cfgs w) as (t2 & Hlog & Hb).
  rewrite Hret in Hlog. simpl in Hlog.
  destruct (batch_projections Hb) as (_ & Hi2).
  rewrite Hlog, injected_app, Hi2, app_nil_r. exact Hinj.
Qed.

(** C10 (at most one session).  A call that returns hands back at most
    one client; a returned client is the one built for the merged batch of
    all preloaded skills; none is returned when no preloaded skill declares
    endpoints, and none when the batch connect failed. *)
Theorem C10_at_most_one_session : forall cfgs w tools clients w' tr,
  prepare_skill_tools cfgs w = (Ret (tools, clients), w', tr) ->
  (List.length clients <= 1)%nat
  /\ (forall cl, In cl clients -> cl = batch_client (batch_of cfgs))
  /\ ((forall c, In c cfgs -> should_preload preload_skills c = true ->
                 truthy_opt_list (mcp_servers c) = false) ->
      clients = [])
  /\ (batch_failed tr -> clients = []).
Proof.
  intros cfgs w tools clients w' tr Hret.
  destruct (prepare_skill_tools_ret _ _ Hret)
    as (st & w1 & t1 & mt & t2 & Hloop & Ht & Htr & Hshape).
  destruct Hshape as [(Hnil & _ & Hcls & _) | (Hne & Hrun)].
  - subst clients. simpl. repeat split; auto. intros cl [].
  - split; [inversion Hrun; subst; simpl; lia |].
    split; [inversion Hrun; subst; intros cl0 Hin; split_in Hin; subst; reflexivity |].
    split; [intro Hn; apply batch_of_nothing in Hn; contradiction |].
    intros Hfail.
    pose proof (process_skills_log cfgs initial_state w) as Hlog.
    rewrite Hloop in Hlog. simpl in Hlog. rewrite Forall_forall in Hlog.
    assert (Hin2 : forall ev, is_mcp_event ev = true -> In ev tr -> In ev t2).
    { intros ev Hev Hin. subst tr. apply in_app_or in Hin.
      destruct Hin as [Hin | Hin]; [rewrite (Hlog _ Hin) in Hev; discriminate |].
      apply in_app_or in Hin. destruct Hin as [Hin | [Hin | []]]; [exact Hin |].
      subst ev. discriminate. }
    inversion Hrun; subst mt clients; try reflexivity.
    exfalso. clear Hrun.
    destruct Hfail as [(cf & e & H) | [(cl0 & t & e & H) | [(cl0 & H) | (cl0 & e & H)]]];
      apply Hin2 in H; try reflexivity;
      match goal with Heq : _ = t2 |- _ => rewrite <- Heq in H end;
      split_in H; discriminate.
Qed.


(** ** Further properties *)

(** X1.  [_download_skill_binary] never raises: it returns the content
    when the request succeeded and [None] on an HTTP error status or any
    other exception, after exactly one request, to the given URL with the
    authorization headers. *)
Theorem download_skill_binary_outcome : forall url n w,
  exists tr,
    _download_skill_binary url n w
    = (Ret (match fst (httpx_get env url auth_headers w) with
            | Ret content => Some content
            | Raise _ => None
            end),
       snd (httpx_get env url auth_headers w), tr)
    /\ downloads tr = [(url, auth_headers)]
    /\ In (EvHttpGet url auth_headers (fst (httpx_get env url auth_headers w))) tr.
Proof.
  intros url n w.
  unfold _download_skill_binary, try_except, bind, call, add_span_event, ret.
  destruct (httpx_get env url auth_headers w) as [[content | e] w1]; simpl.
  - eexists. split; [reflexivity | split; [reflexivity | simpl; auto]].
  - destruct e; simpl;
      (eexists; split; [reflexivity | split; [reflexivity | simpl; auto]]).
Qed.

Ltac run_load_provider :=
  unfold load_provider, download_and_load, _download_skill_binary,
    try_except, bind, call, add_span_event, ret;
  repeat (cbv beta iota delta [andb negb truthy_list];
          match goal with
          | |- context [httpx_get env ?u ?h ?w] =>
              destruct (httpx_get env u h w) as [[[| ? ?] | [| ? | ? | ?]] ?] eqn:?
          | |- context [ensure_provider_loaded env ?a ?b ?c ?d ?w] =>
              destruct (ensure_provider_loaded env a b c d w) as [[[] | ?] ?] eqn:?
          | |- context [cfg_provider ?c] => destruct (cfg_provider c) as [[| ? ?] |] eqn:?
          | |- context [cfg_skill_id ?c] => destruct (cfg_skill_id c) eqn:?
          | |- context [is_public ?c] => destruct (is_public c) eqn:?
          | |- context [truthy_str remote_url] => destruct (truthy_str remote_url) eqn:?
          | |- context [(?z =? 0)%Z] => destruct (z =? 0)%Z eqn:?
          end);
  cbv beta iota delta [andb negb truthy_list].

(** A provider is loaded only from a downloaded, non-empty bundle. *)
Lemma load_provider_needs_download : forall c w n b r,
  In (EvEnsureProviderLoaded n b r) (snd (load_provider c w)) ->
  exists sid content,
    cfg_skill_id c = Some sid /\ content <> []
    /\ In (EvHttpGet (download_url sid) auth_headers (Ret content))
          (snd (load_provider c w)).
Proof.
  intros c w n b r. run_load_provider.
  all: simpl; intro H; split_in H; try discriminate.
  all: eexists; eexists; split; [reflexivity | split; [| auto 10]]; discriminate.
Qed.

(** Without a base URL nothing is downloaded and no provider is loaded. *)
Lemma load_provider_without_url : forall c w ev,
  remote_url = "" ->
  In ev (snd (load_provider c w)) ->
  is_code_load_event ev = false.
Proof.
  intros c w ev Hurl. run_load_provider.
  all: simpl; intro H; split_in H; subst; try reflexivity.
  all: rewrite Hurl in *; discriminate.
Qed.

Ltac same_provider_run :=
  repeat match goal with
         | H1 : load_provider ?c0 ?w0 = _, H2 : load_provider ?c0 ?w0 = _ |- _ =>
             rewrite H1 in H2; inversion H2; subst; clear H2
         end.

(** Downloads and provider loads of an iteration are those of its
    provider step, and the skill has declarations. *)
Lemma process_skill_code_load_in : forall c st w ev,
  In ev (snd (process_skill c st w)) ->
  is_code_load_event ev = true ->
  has_declarations c = true
  /\ In ev (snd (load_provider c w))
  /\ incl (snd (load_provider c w)) (snd (process_skill c st w)).
Proof.
  intros c st w ev. unfold has_declarations, truthy_list. run_process_skill.
  all: simpl; intros H Hc; split_in H; subst; try discriminate.
  all: same_provider_run.
  all: split; [reflexivity | split; [assumption |]].
  all: intros x Hx; right; apply in_or_app; left; exact Hx.
Qed.

Lemma code_load_not_batch : forall ev,
  is_code_load_event ev = true -> is_batch_event ev = false.
Proof. intros ev H. unfold is_batch_event. rewrite H. apply andb_false_r. Qed.

(** X2.  With no base URL configured ([REMOTE_STORAGE_URL] missing, empty
    or made of slashes only) a call downloads nothing and loads no provider,
    for any skill, a public one included. *)
Theorem no_remote_url_no_code_load : forall cfgs w ev,
  remote_url = "" ->
  In ev (snd (prepare_skill_tools cfgs w)) ->
  is_code_load_event ev = false.
Proof.
  intros cfgs w ev Hurl Hin.
  destruct (is_code_load_event ev) eqn:Hev; [| reflexivity].
  destruct (prepare_skill_tools_in _ _ _ Hin (code_load_not_batch _ Hev))
    as (c & st0 & w0 & _ & Hi & _).
  destruct (process_skill_code_load_in _ _ _ _ Hi Hev) as (_ & Hlp & _).
  rewrite (load_provider_without_url c w0 ev Hurl Hlp) in Hev. discriminate.
Qed.

(** X3.  A provider is loaded only from a bundle that was downloaded:
    every call of [ensure_provider_loaded] in a call's log is for a skill of
    the input whose bundle request, to the URL of its skill id, returned
    non-empty content.  An empty response body loads nothing. *)
Theorem provider_load_needs_download : forall cfgs w n b r,
  In (EvEnsureProviderLoaded n b r) (snd (prepare_skill_tools cfgs w)) ->
  exists c sid content,
    In c cfgs /\ skill_name c = n /\ cfg_skill_id c = Some sid
    /\ content <> []
    /\ In (EvHttpGet (download_url sid) auth_headers (Ret content))
          (snd (prepare_skill_tools cfgs w)).
Proof.
  intros cfgs w n b r Hin.
  destruct (prepare_skill_tools_in _ _ _ Hin eq_refl)
    as (c & st0 & w0 & Hc & Hi & Hincl).
  destruct (process_skill_code_load_in _ _ _ _ Hi eq_refl) as (_ & Hlp & Hsub).
  destruct (load_provider_gate c w0 _ Hlp eq_refl)
    as (_ & _ & [(sid & r' & _ & Heq) | (r' & Heq)]); [discriminate |].
  inversion Heq; subst.
  destruct (load_provider_needs_download c w0 _ _ _ Hlp)
    as (sid & content & Hsid & Hne & Hget).
  exists c, sid, content. repeat split; auto.
Qed.

(** X4.  A skill without tool declarations never reaches the download
    endpoint, the provider loader, the tool registry or the loader's
    registration: every such entry in a call's log belongs to a skill of
    the input that has declarations. *)
Theorem only_skills_with_declarations_reach_the_registry : forall cfgs w,
  let tr := snd (prepare_skill_tools cfgs w) in
  (forall url h r, In (EvHttpGet url h r) tr ->
     exists c sid, In c cfgs /\ has_declarations c = true
                   /\ cfg_skill_id c = Some sid /\ url = download_url sid)
  /\ (forall n b r, In (EvEnsureProviderLoaded n b r) tr ->
        exists c, In c cfgs /\ has_declarations c = true /\ n = skill_name c)
  /\ (forall c r, In (EvCreateTools c r) tr ->
        In c cfgs /\ has_declarations c = true)
  /\ (forall n ts r, In (EvRegisterSkillTools n ts r) tr ->
        exists c, In c cfgs /\ has_declarations c = true /\ n = skill_name c).
Proof.
  intros cfgs w tr. unfold tr. repeat split.
  - intros url h r Hin.
    destruct (prepare_skill_tools_in _ _ _ Hin eq_refl)
      as (c & st0 & w0 & Hc & Hi & _).
    destruct (process_skill_code_load_in _ _ _ _ Hi eq_refl) as (Hd & Hlp & _).
    destruct (load_provider_gate c w0 _ Hlp eq_refl)
      as (_ & _ & [(sid & r' & Hsid & Heq) | (r' & Heq)]); [| discriminate].
    inversion Heq; subst. exists c, sid. auto.
  - intros n b r Hin.
    destruct (prepare_skill_tools_in _ _ _ Hin eq_refl)
      as (c & st0 & w0 & Hc & Hi & _).
    destruct (process_skill_code_load_in _ _ _ _ Hi eq_refl) as (Hd & Hlp & _).
    destruct (load_provider_gate c w0 _ Hlp eq_refl)
      as (_ & _ & [(sid & r' & Hsid & Heq) | (r' & Heq)]); [discriminate |].
    inversion Heq; subst. exists c. auto.
  - destruct (prepare_skill_tools_in _ _ _ H eq_refl)
      as (c' & st0 & w0 & Hc & Hi & _).
    destruct (process_skill_creates_own _ _ _ _ _ Hi) as (Heq & _). subst. exact Hc.
  - destruct (prepare_skill_tools_in _ _ _ H eq_refl)
      as (c' & st0 & w0 & Hc & Hi & _).
    destruct (process_skill_creates_own _ _ _ _ _ Hi) as (Heq & Hd). subst. exact Hd.
  - intros n ts r Hin.
    destruct (prepare_skill_tools_in _ _ _ Hin eq_refl)
      as (c & st0 & w0 & Hc & Hi & _).
    destruct (process_skill_registered _ _ _ _ _ _ Hi) as (Hn & Hcr).
    destruct (process_skill_creates_own _ _ _ _ _ Hcr) as (_ & Hd).
    exists c. auto.
Qed.

Lemma last_app_cons : forall (A : Type) (l1 : list A) (a : A) (l2 : list A) (d : A),
  last (l1 ++ a :: l2) d = last (a :: l2) d.
Proof.
  induction l1 as [| x l1 IH]; intros a l2 d; [reflexivity |].
  simpl app. rewrite <- (IH a l2 d). simpl.
  destruct (l1 ++ a :: l2) eqn:Heq; [| reflexivity].
  destruct l1; discriminate.
Qed.

(** An iteration raises only from a call made outside any [try], and that
    call is the last entry of its log. *)
Lemma process_skill_raise : forall c st w e w' tr,
  process_skill c st w = (Raise e, w', tr) ->
  raised_by e (last tr (EvSpan "")).
Proof.
  intros c st w e w' tr. run_process_skill.
  all: intro H; inversion H; subst; clear H.
  all: rewrite ?app_comm_cons, ?last_app_cons; simpl; reflexivity.
Qed.

Lemma process_skills_raise : forall cfgs st w e w' tr,
  process_skills cfgs st w = (Raise e, w', tr) ->
  raised_by e (last tr (EvSpan "")).
Proof.
  induction cfgs as [| c rest IH]; intros st w e w' tr H; [discriminate |].
  rewrite process_skills_cons in H.
  destruct (process_skill c st w) as [[[st1 | e1] w1] t1] eqn:Hc.
  - destruct (process_skills rest st1 w1) as [[r w2] t2] eqn:Hr.
    inversion H; subst; clear H.
    specialize (IH _ _ _ _ _ Hr).
    destruct t2 as [| a t2]; [destruct IH |].
    rewrite last_app_cons. exact IH.
  - inversion H; subst; clear H. apply (process_skill_raise _ _ _ Hc).
Qed.

(** X5.  An exception that leaves [prepare_skill_tools] was raised by
    [create_tools_for_skill], [register_skill_tools] or
    [preload_skill_prompt], the call being the last entry of the log; and
    by then no MCP client has been constructed or connected, so no session
    is left open behind the exception. *)
Theorem escaping_exception_leaves_no_session : forall cfgs w e w' tr,
  prepare_skill_tools cfgs w = (Raise e, w', tr) ->
  raised_by e (last tr (EvSpan ""))
  /\ Forall (fun ev => is_mcp_event ev = false) tr
  /\ clients_opened tr = [].
Proof.
  intros cfgs w e w' tr H.
  destruct (process_skills cfgs initial_state w) as [[[st | e1] w1] t1] eqn:Hloop.
  - destruct (prepare_skill_tools_after_loop _ _ Hloop)
      as (mt & cls & w2 & t2 & Hp & _).
    rewrite Hp in H. discriminate.
  - rewrite (prepare_skill_tools_raises _ _ Hloop) in H.
    inversion H; subst; clear H.
    pose proof (process_skills_log cfgs initial_state w) as Hlog.
    rewrite Hloop in Hlog. simpl in Hlog.
    split; [apply (process_skills_raise _ _ _ Hloop) |].
    split; [exact Hlog | apply (no_mcp_projections Hlog)].
Qed.

Lemma subseq_in : forall (A : Type) (l1 l2 : list A) (x : A),
  subseq l1 l2 -> In x l1 -> In x l2.
Proof.
  induction 1 as [| y l1 l2 _ IH | y l1 l2 _ IH]; intro Hin; simpl in *; tauto.
Qed.

(** X6.  A prompt is injected only for a skill of the input that is
    named in [preload_skills] and has prompt text, and only when a loader is
    present; it is flagged as selected by the user exactly when the skill's
    name is in [user_selected_skills].  This holds whether the call returns
    or raises. *)
Theorem prompt_injected_only_for_preloaded : forall cfgs w n b,
  In (n, b) (injected (snd (prepare_skill_tools cfgs w))) ->
  exists c lt,
    In c cfgs /\ n = skill_name c
    /\ load_skill_tool = Some lt
    /\ should_preload preload_skills c = true
    /\ cfg_prompt c <> ""
    /\ b = is_user_selected user_selected_skills c.
Proof.
  intros cfgs w n b Hin.
  destruct (prepare_skill_tools_log cfgs w) as (t2 & Hlog & Hb).
  destruct (batch_projections Hb) as (_ & Hi2).
  rewrite Hlog, injected_app, Hi2, app_nil_r in Hin.
  destruct (process_skills_injects cfgs initial_state w) as (sub & Hsub & Hinj).
  rewrite Hinj in Hin. apply in_map_iff in Hin.
  destruct Hin as (c & Heq & Hc). inversion Heq; subst.
  apply (@subseq_in _ sub _ c Hsub) in Hc. apply filter_In in Hc.
  destruct Hc as (Hc & Hw). unfold wants_prompt in Hw.
  destruct load_skill_tool as [lt |]; [| discriminate].
  apply andb_true_iff in Hw. destruct Hw as (Hp & Ht).
  exists c, lt. repeat split; auto.
  intro Hempty. rewrite Hempty in Ht. discriminate.
Qed.

(** X7.  [_load_skill_mcp_tools] connects at most once, with no retry;
    it lists the tools only of a client whose connect returned and that
    reported itself connected; it never disconnects a client whose tools it
    listed; and a disconnect is the last thing it does. *)
Theorem mcp_connect_once_and_in_order : forall c0 rest tid td w,
  let tr := snd (_load_skill_mcp_tools (c0 :: rest) tid td w) in
  (List.length (connects tr) <= 1)%nat
  /\ (forall cl r, In (EvGetTools cl r) tr ->
        In (EvConnect cl connect_timeout (Ret tt)) tr /\ In (EvIsConnected cl true) tr)
  /\ (forall cl l, In (EvGetTools cl (Ret l)) tr -> disconnected tr = [])
  /\ (forall cl r, In (EvDisconnect cl r) tr -> last tr (EvSpan "") = EvDisconnect cl r).
Proof.
  intros c0 rest tid td w tr.
  destruct (load_skill_mcp_tools_run c0 rest tid td w) as (res & w' & _ & Hrun).
  fold tr in Hrun. clearbody tr.
  inversion Hrun; subst; unfold connects, disconnected; simpl.
  all: split; [lia |].
  all: split;
    [ intros cl0 r0 H; split_in H; try discriminate;
      inversion H; subst; split; simpl; auto 10 |].
  all: split;
    [ intros cl0 l0 H; split_in H; try discriminate; reflexivity |].
  all: intros cl0 r0 H; split_in H; try discriminate;
    inversion H; subst; reflexivity.
Qed.

(** Registration and prompt injection need a loader, and an empty tool
    list is not registered. *)
Lemma process_skill_loader_events : forall c st w,
  (forall n ts r, In (EvRegisterSkillTools n ts r) (snd (process_skill c st w)) ->
     ts <> [] /\ load_skill_tool <> None)
  /\ (forall n b r, In (EvPreloadSkillPrompt n b r) (snd (process_skill c st w)) ->
        load_skill_tool <> None).
Proof.
  intros c st w. run_process_skill.
  all: simpl; split; intros;
    match goal with
    | H : _ |- _ => split_in H; try discriminate; try in_quiet_absurd
    end.
  all: try (inversion H; subst; split; discriminate).
  all: try discriminate.
Qed.

(** X8.  Without a loader ([load_skill_tool] is [None]) a call registers
    nothing and injects no prompt; with one, an empty tool list is never
    registered. *)
Theorem loader_calls_need_a_loader : forall cfgs w,
  let tr := snd (prepare_skill_tools cfgs w) in
  (forall n ts r, In (EvRegisterSkillTools n ts r) tr ->
     ts <> [] /\ load_skill_tool <> None)
  /\ (forall n b r, In (EvPreloadSkillPrompt n b r) tr -> load_skill_tool <> None).
Proof.
  intros cfgs w tr. unfold tr. split.
  - intros n ts r Hin.
    destruct (prepare_skill_tools_in _ _ _ Hin eq_refl)
      as (c & st0 & w0 & _ & Hi & _).
    apply (proj1 (process_skill_loader_events c st0 w0) n ts r Hi).
  - intros n b r Hin.
    destruct (prepare_skill_tools_in _ _ _ Hin eq_refl)
      as (c & st0 & w0 & _ & Hi & _).
    apply (proj2 (process_skill_loader_events c st0 w0) n b r Hi).
Qed.





End Call.
End Factory.

(** ** Worked examples on the reference world *)

Ltac in_log := simpl; repeat first [left; reflexivity | right].

Lemma reference_env_returns : forall s, unguarded_calls_return (reference_env s).
Proof.
  intro s. repeat split.
  - intros c ctx w. simpl.
    destruct (truthy_opt_list (cfg_provider c) && negb (str_in (skill_name c) w));
      eauto.
  - intros lt n ts w. simpl. eauto.
  - intros lt n c b w. simpl. eauto.
Qed.

Lemma C1_security_gate_witness :
  let ev := EvHttpGet "http://backend/api/skills/7/binary"
                      [("Authorization", "Bearer secret")] (Ret zip_bytes) in
  let tr := snd (prepare_skill_tools (reference_env all_fine) reference_settings
                   1 2 3 false (Some tt) (Some ["a"]) None "u" "tok" None
                   local_and_remote []) in
  (In ev tr /\ is_code_load_event ev = true)
  /\ (exists c, In c local_and_remote /\ cfg_skill_user_id c = Some 0)
  /\ (declares_code_provider ownerless_skill = true
      /\ cfg_skill_user_id ownerless_skill <> Some 0)
  /\ load_provider (reference_env all_fine) reference_settings ownerless_skill []
     = (Ret tt, [], [EvSpan "skill_code_load_skipped"]).
Proof.
  intros ev tr.
  pose proof (C1_security_gate (reference_env all_fine) reference_settings
                1 2 3 false (Some tt) (Some ["a"]) None "u" "tok" None
                local_and_remote []) as (Hgate & Hdenied & _).
  assert (Hin : In ev tr) by (unfold ev, tr; vm_compute; in_log).
  assert (Hd : declares_code_provider ownerless_skill = true) by reflexivity.
  assert (Ho : cfg_skill_user_id ownerless_skill <> Some 0) by discriminate.
  split; [split; [exact Hin | reflexivity] |].
  split.
  - destruct (Hgate ev Hin eq_refl) as (c & Hc & Howner & _). exists c. auto.
  - split; [split; assumption |].
    exact (proj1 (Hdenied ownerless_skill (initial_state string) [] Hd Ho)).
Defined.

Lemma C2_session_resource_safety_witness :
  let configs := [("r_srv", [("url", "http://mcp")])] in
  let run := _load_skill_mcp_tools (reference_env connect_times_out) configs 1 None [] in
  In (EvMCPClient (tool := string) configs (Ret tt)) (snd run)
  /\ exists tools w',
       fst run = (Ret (tools, []), w')
       /\ disconnected (snd run)
          = [{| client_servers := configs; client_task_data := None |}].
Proof.
  intros configs run. unfold run, configs.
  destruct (C2_session_resource_safety (reference_env connect_times_out)
              ("r_srv", [("url", "http://mcp")]) [] 1 None [])
    as (_ & tools & clients & w' & Hrun & Hcreated & _).
  match type of Hcreated with
  | ?P -> _ => assert (Hin : P) by (vm_compute; in_log)
  end.
  split; [exact Hin |].
  destruct (Hcreated Hin) as [(Hc & Hd) | (Hc & Hd)].
  - exfalso. subst clients. vm_compute in Hrun. discriminate.
  - exists tools, w'. subst clients.
    split; [exact (f_equal fst Hrun) | exact Hd].
Defined.

Lemma C3_provider_failure_isolated_witness :
  unguarded_calls_return (reference_env load_of_b_raises)
  /\ exists tools clients w' tr,
       prepare_skill_tools (reference_env load_of_b_raises) reference_settings
         1 2 3 false (Some tt) (Some ["a"; "b"; "c"]) None "u" "tok" None
         three_skills []
       = (Ret (tools, clients), w', tr)
       /\ map fst (created tr) = filter has_declarations three_skills.
Proof.
  split; [apply reference_env_returns |].
  destruct (C3_provider_failure_isolated reference_settings 1 2 3 false (Some tt)
              (Some ["a"; "b"; "c"]) None "u" "tok" None three_skills []
              (reference_env_returns load_of_b_raises))
    as (_ & tools & clients & w' & tr & Hret & Hcreated & _).
  exists tools, clients, w', tr. split; assumption.
Defined.

(** The scenario of C3: the provider load of the second of three skills
    raises; the call returns the tools of the first and the third, in
    order, and no session. *)
Example second_provider_load_raises :
  fst (prepare_skill_tools (reference_env load_of_b_raises) reference_settings
         1 2 3 false (Some tt) (Some ["a"; "b"; "c"]) None "u" "tok" None
         three_skills [])
  = (Ret (["a.t"; "c.t"], []), ["c"; "a"]).
Proof. vm_compute. reflexivity. Qed.

Lemma C4_batch_connect_outcome_witness :
  exists st w1 t1,
    process_skills (reference_env connect_times_out) reference_settings
      1 2 3 false (Some tt) (Some ["a"; "r"]) None "u" "tok"
      local_and_remote (initial_state string) []
    = (Ret st, w1, t1)
    /\ st_skill_mcp_configs st <> []
    /\ exists mt cls w' t2,
         prepare_skill_tools (reference_env connect_times_out) reference_settings
           1 2 3 false (Some tt) (Some ["a"; "r"]) None "u" "tok" None
           local_and_remote []
         = (Ret (st_tools st ++ mt, cls), w',
            t1 ++ t2 ++ [EvSpan "skill_tools_preparation_completed"])
         /\ clients_opened (t1 ++ t2) = [st_skill_mcp_configs st].
Proof.
  destruct (process_skills (reference_env connect_times_out) reference_settings
              1 2 3 false (Some tt) (Some ["a"; "r"]) None "u" "tok"
              local_and_remote (initial_state string) [])
    as [[[st | e] w1] t1] eqn:Hloop;
    [| vm_compute in Hloop; discriminate].
  assert (Hne : st_skill_mcp_configs st <> []).
  { pose proof Hloop as Hc. vm_compute in Hc. inversion Hc. discriminate. }
  exists st, w1, t1. split; [reflexivity | split; [exact Hne |]].
  destruct (C4_batch_connect_outcome (reference_env connect_times_out)
              reference_settings 1 2 3 false (Some tt) (Some ["a"; "r"]) None
              "u" "tok" None local_and_remote [] Hloop Hne)
    as (mt & cls & w' & t2 & Hret & Hopen & _).
  exists mt, cls, w', t2. split; assumption.
Defined.

(** The scenario of C4: the endpoint of skill "r" times out in the batch
    connect, and the disconnect raises too; the call returns the local
    tools only, no session, and raises nothing. *)
Example batch_connect_times_out :
  fst (prepare_skill_tools (reference_env connect_times_out) reference_settings
         1 2 3 false (Some tt) (Some ["a"; "r"]) None "u" "tok" None
         local_and_remote [])
  = (Ret (["a.t1"; "a.t2"], []), ["a"]).
Proof. vm_compute. reflexivity. Qed.

(** The same call when the servers answer: the remote tools come last and
    the one client is returned. *)
Example batch_connect_succeeds :
  fst (prepare_skill_tools (reference_env all_fine) reference_settings
         1 2 3 false (Some tt) (Some ["a"; "r"]) None "u" "tok" None
         local_and_remote [])
  = (Ret (["a.t1"; "a.t2"; "remote.search"],
          [{| client_servers := [("r_srv", [("url", "http://mcp")])];
              client_task_data := None |}]),
     ["a"]).
Proof. vm_compute. reflexivity. Qed.

(** Skill "r" not preloaded: its endpoint is left alone and no client is
    opened. *)
Example endpoint_of_lazy_skill_deferred :
  let run := prepare_skill_tools (reference_env all_fine) reference_settings
               1 2 3 false (Some tt) (Some ["a"]) None "u" "tok" None
               local_and_remote [] in
  fst run = (Ret (["a.t1"; "a.t2"], []), ["a"])
  /\ clients_opened (snd run) = [].
Proof. vm_compute. split; reflexivity. Qed.

(** C5 (endpoint batching and prefixing): the keys of the merge are not
    distinct for distinct pairs.  Skill "a_b" with endpoint "c" and skill
    "a" with endpoint "b_c" are different pairs with one prefixed name, and
    in the batch the configuration of the second has replaced that of the
    first. *)
Theorem C5_prefixed_names_collide :
  ("a_b", "c") <> ("a", "b_c")
  /\ prefixed_name "a_b" "c" = prefixed_name "a" "b_c"
  /\ batch_of (Some ["a_b"; "a"]) colliding_skills
     = [("a_b_c", [("url", "http://second")])]
  /\ dict_get (batch_of (Some ["a_b"; "a"]) colliding_skills)
              (prefixed_name "a_b" "c")
     = Some [("url", "http://second")].
Proof. split; [discriminate | repeat split]. Qed.

(** C6 (preloaded skill activation): a preloaded skill with declarations
    and prompt text, a loader being present, gets no prompt injected when
    the registry creates no tools for it, here because its owner is not the
    public one; the same skill without declarations gets its prompt. *)
Theorem C6_no_prompt_when_no_tools_created :
  let call := fun cfgs =>
    snd (prepare_skill_tools (reference_env all_fine) reference_settings
           1 2 3 false (Some tt) (Some ["p"]) None "u" "tok" None cfgs []) in
  should_preload (Some ["p"]) private_skill = true
  /\ has_declarations private_skill = true
  /\ truthy_str (cfg_prompt private_skill) = true
  /\ created (call [private_skill]) = [(private_skill, [])]
  /\ injected (call [private_skill]) = []
  /\ injected (call [private_skill_no_tools]) = [("p", false)].
Proof. vm_compute. repeat split. Qed.

Lemma C7_registration_regardless_of_preload_witness :
  let tr := snd (prepare_skill_tools (reference_env all_fine) reference_settings
                   1 2 3 false (Some tt) None None "u" "tok" None
                   local_and_remote []) in
  let a := local_skill "a" (Some 0) ["t1"; "t2"] true in
  (Some tt = Some tt
   /\ In (EvCreateTools a (Ret ["a.t1"; "a.t2"])) tr
   /\ In "a.t1" ["a.t1"; "a.t2"])
  /\ should_preload None a = false
  /\ exists r, In (EvRegisterSkillTools "a" ["a.t1"; "a.t2"] r) tr.
Proof.
  intros tr a.
  assert (Hin : In (EvCreateTools a (Ret ["a.t1"; "a.t2"])) tr)
    by (vm_compute; in_log).
  assert (Ht : In "a.t1" ["a.t1"; "a.t2"]) by (left; reflexivity).
  split; [auto |]. split; [reflexivity |].
  exact (proj1 (proj2
    (C7_registration_regardless_of_preload (reference_env all_fine)
       reference_settings 1 2 3 false None None "u" "tok" None
       local_and_remote [] a ["a.t1"; "a.t2"] "a.t1" eq_refl Hin Ht))).
Defined.

Lemma C8_preload_determination_witness :
  let a := local_skill "a" (Some 0) ["t1"; "t2"] true in
  (should_preload (Some ["x"; "a"]) a = true
   /\ exists names, Some ["x"; "a"] = Some names /\ In (skill_name a) names)
  /\ exists tools clients w' tr,
       prepare_skill_tools (reference_env all_fine) reference_settings
         1 2 3 false (Some tt) None None "u" "tok" None local_and_remote []
       = (Ret (tools, clients), w', tr)
       /\ tools = [] /\ clients = [] /\ injected tr = [].
Proof.
  intro a.
  pose proof (C8_preload_determination (reference_env all_fine) reference_settings
                1 2 3 false (Some tt) None None "u" "tok" None
                (Some ["x"; "a"]) a) as (Hiff & _ & Hnone).
  assert (Hp : should_preload (Some ["x"; "a"]) a = true) by reflexivity.
  split; [split; [exact Hp | exact (proj1 Hiff Hp)] |].
  destruct (prepare_skill_tools (reference_env all_fine) reference_settings
              1 2 3 false (Some tt) None None "u" "tok" None local_and_remote [])
    as [[[[tools clients] | e] w'] tr] eqn:Hret;
    [| vm_compute in Hret; discriminate].
  exists tools, clients, w', tr. split; [reflexivity |].
  exact (Hnone local_and_remote [] tools clients w' tr eq_refl Hret).
Defined.

Lemma C9_aggregation_order_witness :
  exists tools clients w' tr,
    prepare_skill_tools (reference_env all_fine) reference_settings
      1 2 3 false (Some tt) (Some ["a"; "r"]) None "u" "tok" None
      local_and_remote []
    = (Ret (tools, clients), w', tr)
    /\ map fst (created tr) = filter has_declarations local_and_remote
    /\ tools = flat_map (active_block (Some ["a"; "r"])) (created tr) ++ remote_tools tr.
Proof.
  destruct (prepare_skill_tools (reference_env all_fine) reference_settings
              1 2 3 false (Some tt) (Some ["a"; "r"]) None "u" "tok" None
              local_and_remote [])
    as [[[[tools clients] | e] w'] tr] eqn:Hret;
    [| vm_compute in Hret; discriminate].
  exists tools, clients, w', tr. split; [reflexivity |].
  destruct (C9_aggregation_order (reference_env all_fine) reference_settings
              1 2 3 false (Some tt) (Some ["a"; "r"]) None "u" "tok" None
              local_and_remote [] Hret) as (Hc & Ht & _).
  split; assumption.
Defined.

Lemma C10_at_most_one_session_witness :
  exists tools clients w' tr,
    prepare_skill_tools (reference_env all_fine) reference_settings
      1 2 3 false (Some tt) (Some ["a_b"; "a"]) None "u" "tok" None
      colliding_skills []
    = (Ret (tools, clients), w', tr)
    /\ (List.length clients <= 1)%nat.
Proof.
  destruct (prepare_skill_tools (reference_env all_fine) reference_settings
              1 2 3 false (Some tt) (Some ["a_b"; "a"]) None "u" "tok" None
              colliding_skills [])
    as [[[[tools clients] | e] w'] tr] eqn:Hret;
    [| vm_compute in Hret; discriminate].
  exists tools, clients, w', tr. split; [reflexivity |].
  exact (proj1 (C10_at_most_one_session (reference_env all_fine) reference_settings
                  1 2 3 false (Some tt) (Some ["a_b"; "a"]) None "u" "tok" None
                  colliding_skills [] Hret)).
Defined.

(** ** Dictionaries *)

Lemma dict_get_set_same : forall (V : Type) (d : dict V) k v,
  dict_get (dict_set d k v) k = Some v.
Proof.
  induction d as [| [k0 v0] rest IH]; intros k v; simpl.
  - rewrite String.eqb_refl. reflexivity.
  - destruct (String.eqb k0 k) eqn:Hk; simpl; rewrite Hk; auto.
Qed.

Lemma dict_get_set_other : forall (V : Type) (d : dict V) k v k',
  k' <> k -> dict_get (dict_set d k v) k' = dict_get d k'.
Proof.
  induction d as [| [k0 v0] rest IH]; intros k v k' Hne; simpl.
  - destruct (String.eqb k k') eqn:Hk; [| reflexivity].
    apply String.eqb_eq in Hk. congruence.
  - destruct (String.eqb k0 k) eqn:Hk; simpl.
    + apply String.eqb_eq in Hk. subst k0.
      destruct (String.eqb k k') eqn:Hk'; [| reflexivity].
      apply String.eqb_eq in Hk'. congruence.
    + destruct (String.eqb k0 k'); auto.
Qed.


Lemma dict_set_nodup : forall (V : Type) (d : dict V) k v,
  NoDup (keys d) -> NoDup (keys (dict_set d k v)).
Proof.
  unfold keys. induction d as [| [k0 v0] rest IH]; intros k v Hd; simpl.
  - constructor; [intros [] | constructor].
  - inversion Hd as [| x l Hnin Hnd]; subst.
    destruct (String.eqb k0 k) eqn:Heq; simpl; [exact Hd |].
    constructor; [| apply IH; exact Hnd].
    intro Hin. apply (dict_set_keys rest k v k0) in Hin.
    destruct Hin as [Hin | Hin]; [contradiction |].
    subst. rewrite String.eqb_refl in Heq. discriminate.
Qed.

(** ** The skill metadata of [prepare_load_skill_tool] *)

Lemma add_skill_metadata_get : forall md config n,
  dict_get (add_skill_metadata md config) n
  = if named n config && truthy_str n
    then Some (metadata_entry config)
    else dict_get md n.
Proof.
  intros md config n. unfold add_skill_metadata, named.
  destruct (dict_get config "name") as [m |]; [| reflexivity].
  destruct (String.eqb m n) eqn:Hmn; simpl.
  - apply String.eqb_eq in Hmn. subst m.
    destruct (truthy_str n); [apply dict_get_set_same | reflexivity].
  - destruct (truthy_str m); [| reflexivity].
    apply dict_get_set_other. intro Heq. subst.
    rewrite String.eqb_refl in Hmn. discriminate.
Qed.

Lemma find_append : forall (A : Type) (p : A -> bool) (l1 l2 : list A),
  find p (l1 ++ l2)
  = match find p l1 with Some x => Some x | None => find p l2 end.
Proof.
  induction l1 as [| x l1 IH]; intro l2; simpl; [reflexivity |].
  destruct (p x); [reflexivity | apply IH].
Qed.

Lemma fold_skill_metadata_get : forall configs md n,
  truthy_str n = true ->
  dict_get (fold_left add_skill_metadata configs md) n
  = match find (named n) (rev configs) with
    | Some config => Some (metadata_entry config)
    | None => dict_get md n
    end.
Proof.
  induction configs as [| config rest IH]; intros md n Hn; simpl; [reflexivity |].
  rewrite IH by exact Hn. rewrite find_append.
  destruct (find (named n) (rev rest)) as [c' |]; [reflexivity |].
  simpl. rewrite add_skill_metadata_get, Hn, andb_true_r.
  destruct (named n config); reflexivity.
Qed.

(** X10.  Looking a name up in the metadata built from the configurations
    gives the description, prompt and display name of the last
    configuration carrying that name, with [""] for a missing key, and
    nothing when no configuration carries it. *)
Theorem skill_metadata_last_wins : forall configs n,
  n <> "" ->
  dict_get (build_skill_metadata (Some configs)) n
  = option_map metadata_entry (find (named n) (rev configs)).
Proof.
  intros configs n Hn. unfold build_skill_metadata.
  rewrite fold_skill_metadata_get by (destruct n; [contradiction | reflexivity]).
  destruct (find (named n) (rev configs)); reflexivity.
Qed.

Lemma fold_skill_metadata_keys : forall configs md n,
  In n (keys (fold_left add_skill_metadata configs md)) <->
  In n (keys md)
  \/ (n <> "" /\ exists config, In config configs /\ dict_get config "name" = Some n).
Proof.
  induction configs as [| config rest IH]; intros md n; simpl.
  - split; [auto | intros [H | (_ & c & [] & _)]; exact H].
  - rewrite IH. unfold add_skill_metadata at 1.
    destruct (dict_get config "name") as [m |] eqn:Hm.
    + destruct (truthy_str m) eqn:Ht.
      * rewrite dict_set_keys. split.
        -- intros [[H | H] | (Hn & c & Hc & Hname)]; auto.
           ++ subst. right. split; [intro; subst; discriminate | eauto].
           ++ right. split; [exact Hn | eauto].
        -- intros [H | (Hn & c & [Hc | Hc] & Hname)]; auto.
           ++ subst c. left. right. congruence.
           ++ right. split; [exact Hn | eauto].
      * split.
        -- intros [H | (Hn & c & Hc & Hname)]; auto.
           right. split; [exact Hn | eauto].
        -- intros [H | (Hn & c & [Hc | Hc] & Hname)]; auto.
           ++ subst c. exfalso. rewrite Hm in Hname. inversion Hname; subst.
              destruct n; [contradiction | discriminate].
           ++ right. split; [exact Hn | eauto].
    + split.
      * intros [H | (Hn & c & Hc & Hname)]; auto.
        right. split; [exact Hn | eauto].
      * intros [H | (Hn & c & [Hc | Hc] & Hname)]; auto.
        -- subst c. congruence.
        -- right. split; [exact Hn | eauto].
Qed.

Lemma fold_skill_metadata_nodup : forall configs md,
  NoDup (keys md) -> NoDup (keys (fold_left add_skill_metadata configs md)).
Proof.
  induction configs as [| config rest IH]; intros md Hmd; simpl; [exact Hmd |].
  apply IH. unfold add_skill_metadata.
  destruct (dict_get config "name") as [m |]; [| exact Hmd].
  destruct (truthy_str m); [apply dict_set_nodup |]; exact Hmd.
Qed.

(** X11.  The metadata has one entry per non-empty name that occurs in the
    configurations and no other entry: a configuration without name, or
    with the empty name, adds nothing; with no configurations at all the
    metadata is empty. *)
Theorem skill_metadata_keys : forall skill_configs n,
  NoDup (keys (build_skill_metadata skill_configs))
  /\ (In n (keys (build_skill_metadata skill_configs)) <->
      n <> ""
      /\ exists configs config,
           skill_configs = Some configs /\ In config configs
           /\ dict_get config "name" = Some n).
Proof.
  intros [configs |] n; simpl.
  - split; [apply fold_skill_metadata_nodup; constructor |].
    rewrite fold_skill_metadata_keys. simpl. split.
    + intros [[] | (Hn & c & Hc & Hname)]. split; [exact Hn | eauto].
    + intros (Hn & cs & c & Heq & Hc & Hname). inversion Heq; subst.
      right. split; [exact Hn | eauto].
  - split; [constructor |].
    split; [intros [] | intros (_ & cs & c & Heq & _); discriminate].
Qed.

(** ** Reading back what the module formats *)

(** The decimal text of an integer reads back as that integer. *)
Lemma int_of_str_of_int : forall z, int_of_str (str_of_int z) = Some z.
Proof.
  intro z. unfold int_of_str, str_of_int.
  rewrite NilZero.isi.
  - simpl. rewrite DecimalZ.of_to. reflexivity.
  - destruct z; simpl; try discriminate.
    intro H. inversion H as [Hp]. exact (DecimalPos.Unsigned.to_uint_nonnil _ Hp).
  - destruct z; simpl; try discriminate.
    intro H. inversion H as [Hp]. exact (DecimalPos.Unsigned.to_uint_nonnil _ Hp).
Qed.

Lemma string_length_append : forall a b : string,
  String.length (a ++ b)%string = (String.length a + String.length b)%nat.
Proof. induction a as [| ch a IH]; intro b; simpl; [reflexivity | rewrite IH; reflexivity]. Qed.

Lemma string_append_inv_tail : forall c a b : string,
  (a ++ c)%string = (b ++ c)%string -> a = b.
Proof.
  intros c. induction a as [| x a IH]; intros [| y b] H; simpl in H.
  - reflexivity.
  - exfalso. apply (f_equal String.length) in H. simpl in H.
    rewrite string_length_append in H. lia.
  - exfalso. apply (f_equal String.length) in H. simpl in H.
    rewrite string_length_append in H. lia.
  - inversion H. f_equal. auto.
Qed.

(** X12.  Two skill ids are downloaded from one URL only when they are the
    same id: the id can be read back from the URL's decimal text. *)
Theorem download_url_injective : forall settings i j,
  download_url settings i = download_url settings j -> i = j.
Proof.
  intros settings i j H. unfold download_url in H.
  apply append_inv_head in H. apply (append_inv_head "/skills/") in H.
  apply string_append_inv_tail in H.
  apply (f_equal int_of_str) in H. rewrite !int_of_str_of_int in H.
  inversion H. reflexivity.
Qed.

Lemma rstrip_slash_split : forall s,
  exists n, s = (rstrip_slash s ++ slashes n)%string.
Proof.
  induction s as [| c rest (n & IH)]; [exists O; reflexivity |].
  simpl. destruct (rstrip_slash rest) as [| c' r'] eqn:Hr.
  - simpl in IH. destruct (Ascii.eqb c "/") eqn:Hc.
    + apply Ascii.eqb_eq in Hc. subst c. exists (S n). simpl. rewrite <- IH. reflexivity.
    + exists n. simpl. rewrite <- IH. reflexivity.
  - exists n. simpl. rewrite IH at 1. reflexivity.
Qed.

Lemma rstrip_slash_end : forall s, ends_with_slash (rstrip_slash s) = false.
Proof.
  induction s as [| c rest IH]; [reflexivity |].
  simpl. destruct (rstrip_slash rest) as [| c' r'] eqn:Hr.
  - destruct (Ascii.eqb c "/") eqn:Hc; simpl; [reflexivity | exact Hc].
  - simpl in *. exact IH.
Qed.

Lemma rstrip_slash_fixed : forall s, ends_with_slash s = false -> rstrip_slash s = s.
Proof.
  induction s as [| c rest IH]; intro H; [reflexivity |].
  simpl in *. destruct rest as [| c' r'].
  - simpl. rewrite H. reflexivity.
  - rewrite IH by exact H. reflexivity.
Qed.

(** X13.  The base URL of the downloads is the configured
    [REMOTE_STORAGE_URL] without its trailing slashes, all of them and
    nothing else: it does not end with a slash, the configured value is the
    base followed by slashes only, and a value without trailing slash is
    taken as it is.  A missing setting gives the empty base. *)
Theorem remote_url_strips_trailing_slashes : forall settings,
  let configured :=
    match REMOTE_STORAGE_URL settings with Some u => u | None => "" end in
  ends_with_slash (remote_url settings) = false
  /\ (exists n, configured = (remote_url settings ++ slashes n)%string)
  /\ (ends_with_slash configured = false -> remote_url settings = configured)
  /\ (REMOTE_STORAGE_URL settings = None -> remote_url settings = "").
Proof.
  intros settings configured. unfold remote_url. fold configured.
  split; [apply rstrip_slash_end |].
  split; [apply rstrip_slash_split |].
  split; [apply rstrip_slash_fixed |].
  intro H. unfold configured. rewrite H. reflexivity.
Qed.


(** ** The batch of endpoint configs, entry by entry *)

Lemma fold_dict_set_keys : forall (V : Type) (entries : dict V) (b : dict V) k,
  In k (keys (fold_left (fun d kv => dict_set d (fst kv) (snd kv)) entries b)) <->
  In k (keys b) \/ In k (keys entries).
Proof.
  induction entries as [| [k0 v0] rest IH]; intros b k; simpl.
  - tauto.
  - rewrite IH, dict_set_keys. simpl. intuition auto.
Qed.


Lemma collect_as_entries : forall ps c b,
  collect_mcp_servers ps c b
  = fold_left (fun d kv => dict_set d (fst kv) (snd kv)) (endpoint_entries ps c) b.
Proof.
  intros ps c b. unfold collect_mcp_servers, endpoint_entries, merge_mcp_servers.
  destruct (mcp_servers c) as [[| s rest] |]; try reflexivity.
  - destruct (should_preload ps c); reflexivity.
  - destruct (should_preload ps c); [| reflexivity].
    generalize (s :: rest) as servers. intro servers. revert b.
    induction servers as [| kv servers IH]; intro b; simpl; [reflexivity |].
    apply IH.
Qed.

Lemma batch_as_entries : forall ps cfgs b,
  fold_left (fun b c => collect_mcp_servers ps c b) cfgs b
  = fold_left (fun d kv => dict_set d (fst kv) (snd kv)) (all_endpoint_entries ps cfgs) b.
Proof.
  intros ps. induction cfgs as [| c rest IH]; intro b; simpl; [reflexivity |].
  rewrite IH, fold_left_app, collect_as_entries. reflexivity.
Qed.

Lemma endpoint_entry_keys : forall ps cfgs k,
  In k (keys (all_endpoint_entries ps cfgs)) <->
  exists c servers e,
    In c cfgs /\ should_preload ps c = true
    /\ mcp_servers c = Some servers /\ In e (keys servers)
    /\ k = prefixed_name (skill_name c) e.
Proof.
  intros ps cfgs k. unfold keys, all_endpoint_entries.
  rewrite in_map_iff. split.
  - intros ([k' v] & Hk & Hin). simpl in Hk. subst k'.
    apply in_flat_map in Hin. destruct Hin as (c & Hc & Hin).
    unfold endpoint_entries in Hin.
    destruct (mcp_servers c) as [servers |] eqn:Hs; [| destruct Hin].
    destruct (should_preload ps c) eqn:Hp; [| destruct Hin].
    apply in_map_iff in Hin. destruct Hin as ([e cfg] & Heq & Hin).
    simpl in Heq. inversion Heq; subst.
    exists c, servers, e. repeat split; auto.
    apply in_map_iff. exists (e, v). auto.
  - intros (c & servers & e & Hc & Hp & Hs & He & Hk).
    apply in_map_iff in He. destruct He as ([e' cfg] & Heq & Hin).
    simpl in Heq. subst e'.
    exists (k, cfg). split; [reflexivity |].
    apply in_flat_map. exists c. split; [exact Hc |].
    unfold endpoint_entries. rewrite Hs, Hp.
    apply in_map_iff. exists (e, cfg). subst k. auto.
Qed.

(** X15.  The keys of the batch are exactly the prefixed names of the
    endpoints of the preloaded skills: each such endpoint has its key in
    the batch, and a skill that is not preloaded, or has no endpoints,
    contributes none. *)
Theorem batch_keys_are_the_prefixed_names : forall ps cfgs k,
  In k (keys (batch_of ps cfgs)) <->
  exists c servers e,
    In c cfgs /\ should_preload ps c = true
    /\ mcp_servers c = Some servers /\ In e (keys servers)
    /\ k = prefixed_name (skill_name c) e.
Proof.
  intros ps cfgs k. unfold batch_of.
  rewrite batch_as_entries, fold_dict_set_keys, endpoint_entry_keys.
  simpl. tauto.
Qed.


(** X17.  Prefixing cannot confuse two skills whose names have no
    underscore: equal prefixed names then mean the same skill name and the
    same endpoint name. *)
Theorem prefixed_name_injective_without_underscore : forall s1 e1 s2 e2,
  no_underscore s1 = true ->
  no_underscore s2 = true ->
  prefixed_name s1 e1 = prefixed_name s2 e2 ->
  s1 = s2 /\ e1 = e2.
Proof.
  unfold prefixed_name.
  induction s1 as [| x s1 IH]; intros e1 [| y s2] e2 H1 H2 H; simpl in *.
  - inversion H. auto.
  - inversion H; subst y. simpl in H2. discriminate.
  - inversion H; subst x. simpl in H1. discriminate.
  - inversion H; subst y.
    apply andb_true_iff in H1. apply andb_true_iff in H2.
    destruct (IH e1 s2 e2 (proj2 H1) (proj2 H2)) as (Hs & He); [assumption |].
    subst. auto.
Qed.


(** ** Witnesses of the further properties *)

Lemma skill_metadata_last_wins_witness :
  "a" <> ""
  /\ dict_get (build_skill_metadata (Some metadata_configs)) "a"
     = Some {| description := ""; prompt := "p2"; displayName := "" |}.
Proof.
  split; [discriminate |].
  rewrite (skill_metadata_last_wins metadata_configs (n := "a")); [reflexivity | discriminate].
Defined.

Lemma download_url_injective_witness :
  download_url reference_settings 7 = download_url reference_settings (3 + 4)
  /\ 7 = 3 + 4.
Proof.
  split; [reflexivity |].
  apply (download_url_injective reference_settings 7 (3 + 4)). reflexivity.
Defined.


Lemma prefixed_name_injective_without_underscore_witness :
  (no_underscore "web" = true /\ no_underscore "docs" = true
   /\ prefixed_name "web" "search" = prefixed_name "web" "search")
  /\ ("web" = "web" /\ "search" = "search").
Proof.
  split; [repeat split |].
  apply (prefixed_name_injective_without_underscore "web" "search" "web" "search");
    reflexivity.
Defined.

Lemma no_remote_url_no_code_load_witness :
  let tr := snd (prepare_skill_tools (reference_env all_fine) settings_without_url
                   1 2 3 false (Some tt) (Some ["a"]) None "u" "tok" None
                   three_skills []) in
  (remote_url settings_without_url = ""
   /\ In (EvSpan "skill_binary_download_failed") tr)
  /\ is_code_load_event (tool := string) (EvSpan "skill_binary_download_failed") = false.
Proof.
  intro tr.
  assert (Hin : In (EvSpan "skill_binary_download_failed") tr)
    by (vm_compute; in_log).
  split; [split; [reflexivity | exact Hin] |].
  exact (no_remote_url_no_code_load (reference_env all_fine) settings_without_url
           1 2 3 false (Some tt) (Some ["a"]) None "u" "tok" None
           three_skills [] _ eq_refl Hin).
Defined.

Lemma provider_load_needs_download_witness :
  let tr := snd (prepare_skill_tools (reference_env all_fine) reference_settings
                   1 2 3 false (Some tt) (Some ["a"]) None "u" "tok" None
                   local_and_remote []) in
  In (EvEnsureProviderLoaded "a" true (Ret true)) tr
  /\ exists c sid content,
       In c local_and_remote /\ skill_name c = "a" /\ cfg_skill_id c = Some sid
       /\ content <> []
       /\ In (EvHttpGet (download_url reference_settings sid)
                        (auth_headers reference_settings) (Ret content)) tr.
Proof.
  intro tr.
  assert (Hin : In (EvEnsureProviderLoaded "a" true (Ret true)) tr)
    by (vm_compute; in_log).
  split; [exact Hin |].
  exact (provider_load_needs_download (reference_env all_fine) reference_settings
           1 2 3 false (Some tt) (Some ["a"]) None "u" "tok" None
           local_and_remote [] _ _ _ Hin).
Defined.

Lemma escaping_exception_leaves_no_session_witness :
  exists w' tr,
    prepare_skill_tools registry_raises reference_settings
      1 2 3 false (Some tt) (Some ["a"; "r"]) None "u" "tok" None
      local_and_remote []
    = (Raise (RuntimeError "registry down"), w', tr)
    /\ clients_opened tr = [].
Proof.
  destruct (prepare_skill_tools registry_raises reference_settings
              1 2 3 false (Some tt) (Some ["a"; "r"]) None "u" "tok" None
              local_and_remote [])
    as [[[res | e] w'] tr] eqn:Hret;
    [vm_compute in Hret; discriminate |].
  assert (He : e = RuntimeError "registry down").
  { pose proof Hret as Hc. vm_compute in Hc. inversion Hc. reflexivity. }
  subst e. exists w', tr. split; [reflexivity |].
  exact (proj2 (proj2
    (escaping_exception_leaves_no_session registry_raises reference_settings
       1 2 3 false (Some tt) (Some ["a"; "r"]) None "u" "tok" None
       local_and_remote [] Hret))).
Defined.

Lemma prompt_injected_only_for_preloaded_witness :
  let tr := snd (prepare_skill_tools (reference_env all_fine) reference_settings
                   1 2 3 false (Some tt) (Some ["a"]) (Some ["a"]) "u" "tok" None
                   local_and_remote []) in
  In ("a", true) (injected tr)
  /\ exists c lt,
       In c local_and_remote /\ "a" = skill_name c
       /\ Some tt = Some lt
       /\ should_preload (Some ["a"]) c = true
       /\ cfg_prompt c <> ""
       /\ true = is_user_selected (Some ["a"]) c.
Proof.
  intro tr.
  assert (Hin : In ("a", true) (injected tr)) by (vm_compute; left; reflexivity).
  split; [exact Hin |].
  exact (prompt_injected_only_for_preloaded (reference_env all_fine) reference_settings
           1 2 3 false (Some tt) (Some ["a"]) (Some ["a"]) "u" "tok" None
           local_and_remote [] "a" true Hin).
Defined.
